(** * Span-level NER evaluation: a shallow embedding of [main.py]

    The script scores the entities found by a spaCy pipeline against gold
    annotations read from a JSON file.  The embedding follows the body of
    [evaluate] statement by statement:

    - Python [int] offsets are [Z]; for records as they come out of the
      JSON file the fields are values of [JSON.value], and what sits in the
      set of gold triples is their class under Python's [==], a
      [JSON.key]; labels are [string], and a run whose gold labels are not
      all strings is left out;
    - Python sets are [gset]s, lists are lists, the two accumulators
      [y_true]/[y_pred] are threaded through the loops that append to them;
    - exceptions are the [Raise] branch of the result type [res];
    - what the function prints is the value it returns here, as data: the
      outcome lines, the rows of the classification report, the label list,
      the confusion matrix and the TP/FP/FN table.  Text layout (column
      widths, the slice [text[s:e]] shown next to the offsets, float
      formatting) belongs to the printing libraries and is not represented. *)

From stdpp Require Import gmap strings list sorting.
From Stdlib Require Import QArith.

Local Open Scope Z_scope.
Local Open Scope stdpp_scope.

(** ** Exceptions *)

Inductive exn : Set :=
  | ValueError
  | TypeError
  | IndexError
  | KeyError.

Inductive res (A : Type) : Type :=
  | Ok (a : A)
  | Raise (e : exn).
Arguments Ok {A} a.
Arguments Raise {A} e.

#[global] Instance res_ret : MRet res := λ A a, Ok a.
#[global] Instance res_bind : MBind res := λ A B f m,
  match m with
  | Ok a => f a
  | Raise e => Raise e
  end.

(** [for x in l: ...] where the body may raise: the first exception stops
    the loop. *)
Fixpoint res_mapM {A B} (f : A → res B) (l : list A) : res (list B) :=
  match l with
  | [] => Ok []
  | x :: l' => y ← f x; ys ← res_mapM f l'; mret (y :: ys)
  end.

(** ** Python helpers *)

Module Py.

(** [enumerate(l)]. *)
Definition enumerate {A} (l : list A) : list (nat * A) :=
  zip (seq 0 (length l)) l.

(** [sorted(s)] for a set of strings: the strictly increasing list of its
    members (Python compares [str] by code point; on UTF-8 encoded
    labels that is the byte order of [String.le]). *)
Definition sorted (s : gset string) : list string :=
  merge_sort String.le (elements s).

(** [sum] of an integer vector. *)
Definition sum (l : list Z) : Z := foldr Z.add 0 l.

End Py.

(** ** Values read from the annotation file

    [json.loads] turns the file into Python values: [int], [float], [bool],
    [str], [None], lists and dicts.  A finite float is given by its exact
    value; the three floats that are not finite are listed. *)

Module JSON.

Inductive special : Set := PosInf | NegInf | NaN.

#[warnings="-register-all"]
Inductive value : Type :=
  | Int (z : Z)
  | Float (q : Q)
  | Special (f : special)
  | Bool (b : bool)
  | Str (s : string)
  | Null
  | Array (items : list value)
  | Object (members : list (string * value)).

(** The hashable values up to Python's [==]: [True == 1], [False == 0], and
    a float equals the integer of the same value, with equal hashes; a
    float that is not an integer is kept as a fraction in lowest terms.
    These are the values that can sit in the tuples of [gold_set]. *)
Inductive key : Set :=
  | KInt (z : Z)
  | KFrac (num : Z) (den : positive)
  | KSpecial (f : special)
  | KStr (s : string)
  | KNone.

#[global] Instance special_eq_dec : EqDecision special.
Proof. solve_decision. Defined.

#[global] Instance key_eq_dec : EqDecision key.
Proof. solve_decision. Defined.

Definition special_to_nat (f : special) : nat :=
  match f with PosInf => 0 | NegInf => 1 | NaN => 2 end.

Definition special_of_nat (n : nat) : special :=
  match n with 0%nat => PosInf | 1%nat => NegInf | _ => NaN end.

Definition key_to_sum (k : key) : Z + Z * positive + nat + string + unit :=
  match k with
  | KInt z => inl (inl (inl (inl z)))
  | KFrac n d => inl (inl (inl (inr (n, d))))
  | KSpecial f => inl (inl (inr (special_to_nat f)))
  | KStr s => inl (inr s)
  | KNone => inr ()
  end.

Definition key_of_sum (x : Z + Z * positive + nat + string + unit) : key :=
  match x with
  | inl (inl (inl (inl z))) => KInt z
  | inl (inl (inl (inr (n, d)))) => KFrac n d
  | inl (inl (inr n)) => KSpecial (special_of_nat n)
  | inl (inr s) => KStr s
  | inr _ => KNone
  end.

#[global] Instance key_countable : Countable key.
Proof.
  apply (inj_countable' key_to_sum key_of_sum). by intros [| | [] | |].
Defined.

(** [hash(v)] as the set of line 64 needs it: lists and dicts are
    unhashable. *)
Definition hash (v : value) : res key :=
  match v with
  | Int z => Ok (KInt z)
  | Float q =>
      if decide (Qden (Qred q) = 1%positive) then Ok (KInt (Qnum (Qred q)))
      else Ok (KFrac (Qnum (Qred q)) (Qden (Qred q)))
  | Special f => Ok (KSpecial f)
  | Bool b => Ok (KInt (if b then 1 else 0))
  | Str s => Ok (KStr s)
  | Null => Ok KNone
  | Array _ | Object _ => Raise TypeError
  end.

(** One element of the ["entities"] array: an array of values. *)
Definition record : Type := list value.

(** The parsed file: a JSON object whose members are arrays of records, as
    in the docstring of [load_spans]. *)
Definition document : Type := gmap string (list record).

End JSON.

(** ** Spans and the matcher (steps 1 to 3 of [evaluate]) *)

(** The sentinel label of "no entity". *)
Definition O_label : string := "O".

Inductive outcome : Set := TP | FP | FN.

#[global] Instance outcome_eq_dec : EqDecision outcome.
Proof. solve_decision. Defined.

Section matcher.
(** Offsets are generic: [Z] for well-formed spans, hashed JSON values for
    raw gold records. *)
Context {Off : Type} `{Countable Off}.

Definition span : Type := Off * Off * string.

Definition span_label (sp : span) : string := sp.2.

(** [gold_set = {(s, e, lbl) for (s, e, lbl) in gold_spans}] *)
Definition gold_set (gold_spans : list span) : gset span :=
  list_to_set gold_spans.

(** State of the loop of lines 68-71: [pred_status] and [matched_preds]. *)
Definition match_state : Type := list outcome * gset nat.

Definition match_step (gs : gset span) (st : match_state)
    (ip : nat * span) : match_state :=
  if decide (ip.2 ∈ gs)
  then (<[ip.1 := TP]> st.1, {[ip.1]} ∪ st.2)
  else st.

(** [matched_preds = set(); pred_status = ["FP"] * len(pred)] followed by
    the loop over [enumerate(pred)]. *)
Definition match_preds (gs : gset span) (pred : list span) : match_state :=
  foldl (match_step gs) (replicate (length pred) FP, ∅) (Py.enumerate pred).

Definition pred_status (gold_spans pred : list span) : list outcome :=
  (match_preds (gold_set gold_spans) pred).1.

Definition matched_preds (gold_spans pred : list span) : gset nat :=
  (match_preds (gold_set gold_spans) pred).2.

(** Lines 73-78.  The first test is written against
    [gold_set.intersection(gold_set)]; the second against the list of
    predictions. *)
Definition fn_entities (gold_spans pred : list span) : list span :=
  filter (λ g, (g ∉ gold_set gold_spans ∩ gold_set gold_spans) ∧ (g ∉ pred))
         gold_spans.

(** Step 3: the lines printed in reading order, then the FN lines. *)
Definition outcome_lines (gold_spans pred : list span)
    : list (outcome * span) :=
  zip (pred_status gold_spans pred) pred
  ++ ((λ g, (FN, g)) <$> fn_entities gold_spans pred).

(** Step 4: the two lists handed to scikit-learn. *)
Definition y_lists : Type := list string * list string.

(** The test of line 94. *)
Definition gold_found (gs : gset span) (pred : list span) (g : span) : Prop :=
  g ∈ gs ∩ list_to_set pred.

#[global] Instance gold_found_dec gs pred g : Decision (gold_found gs pred g).
Proof. unfold gold_found. apply _. Defined.

Definition gold_step (gs : gset span) (pred : list span) (ys : y_lists)
    (g : span) : y_lists :=
  if decide (gold_found gs pred g)
  then (ys.1 ++ [span_label g], ys.2 ++ [span_label g])
  else (ys.1 ++ [span_label g], ys.2 ++ [O_label]).

Definition fp_step (mp : gset nat) (ys : y_lists) (ip : nat * span)
    : y_lists :=
  if decide (ip.1 ∉ mp)
  then (ys.1 ++ [O_label], ys.2 ++ [span_label ip.2])
  else ys.

Definition build_y (gold_spans pred : list span) : y_lists :=
  let gs := gold_set gold_spans in
  let ys := foldl (gold_step gs pred) ([], []) gold_spans in
  foldl (fp_step (matched_preds gold_spans pred)) ys (Py.enumerate pred).

End matcher.

Arguments span Off : clear implicits.

(** ** The scikit-learn functions called by [evaluate]

    Modelled after their documented contract: counts are exact integers,
    ratios are exact rationals in lowest terms where scikit-learn returns
    IEEE doubles. *)

Module sklearn.

(** Number of samples with true label [a] and predicted label [b]. *)
Definition count_pair (y_true y_pred : list string) (a b : string) : Z :=
  Z.of_nat (length (filter (λ p, p = (a, b)) (zip y_true y_pred))).

Definition count_label (y : list string) (a : string) : Z :=
  Z.of_nat (length (filter (λ l, l = a) y)).

(** [confusion_matrix(y_true, y_pred, labels=labels)]: rows are true
    labels, columns predicted labels, both in the order of [labels]. *)
Definition confusion_matrix (y_true y_pred labels : list string)
    : res (list (list Z)) :=
  if decide (length y_true ≠ length y_pred) then Raise ValueError
  else if decide (labels = []) then Raise ValueError
  else if decide (y_true = []) then
    Ok ((λ _, (λ _, 0) <$> labels) <$> labels)
  else if decide (Forall (λ l, l ∉ labels) y_true) then Raise ValueError
  else Ok ((λ a, (λ b, count_pair y_true y_pred a b) <$> labels) <$> labels).

(** The labels a report is made for: [unique_labels(y_true, y_pred)]. *)
Definition unique_labels (y_true y_pred : list string) : list string :=
  Py.sorted (list_to_set (y_true ++ y_pred)).

(** A ratio under [zero_division=0]. *)
Definition ratio (num den : Z) : Q :=
  if decide (den = 0) then 0%Q else Qred (inject_Z num / inject_Z den).

Record prf : Type := mk_prf {
  precision : Q;
  recall : Q;
  f1_score : Q;
  support : Z
}.

Definition f1_of (p r : Q) : Q :=
  if Qeq_bool (p + r) 0 then 0%Q else Qred (2 * p * r / (p + r)).

Definition class_row (y_true y_pred : list string) (l : string) : prf :=
  let tp := count_pair y_true y_pred l l in
  let p := ratio tp (count_label y_pred l) in
  let r := ratio tp (count_label y_true l) in
  mk_prf p r (f1_of p r) (count_label y_true l).

(** [classification_report(y_true, y_pred, digits=3, zero_division=0)]:
    one row per label.  The width of the first column of the text is the
    maximum of the lengths of the label names, so the function raises
    [ValueError] when there is no label at all, that is when both lists are
    empty.  The averaged rows printed below the label rows are functions of
    these rows and are left to the printer. *)
Definition classification_report (y_true y_pred : list string)
    : res (list (string * prf)) :=
  if decide (length y_true ≠ length y_pred) then Raise ValueError
  else if decide (unique_labels y_true y_pred = []) then Raise ValueError
  else Ok ((λ l, (l, class_row y_true y_pred l))
             <$> unique_labels y_true y_pred).

End sklearn.

(** ** Metrics (step 5 of [evaluate]) *)

(** [labels = sorted({l for l in y_true + y_pred if l != "O"}) + ["O"]] *)
Definition real_labels (ys : y_lists) : list string :=
  Py.sorted (list_to_set (filter (λ l, l ≠ O_label) (ys.1 ++ ys.2))).

Definition labels (ys : y_lists) : list string :=
  real_labels ys ++ [O_label].

(** numpy indexing of the matrix: [cm[i, j]], [cm[:, j]], [cm[i, :]]. *)
Definition cm_at (cm : list (list Z)) (i j : nat) : res Z :=
  match cm !! i with
  | Some r => match r !! j with Some z => Ok z | None => Raise IndexError end
  | None => Raise IndexError
  end.

Definition cm_col (cm : list (list Z)) (j : nat) : res (list Z) :=
  res_mapM (λ r : list Z,
              match r !! j with Some z => Ok z | None => Raise IndexError end)
           cm.

Definition cm_row (cm : list (list Z)) (i : nat) : res (list Z) :=
  match cm !! i with
  | Some r => Ok r
  | None => Raise IndexError
  end.

(** One line [[lbl, TP, FP, FN]] of the last table. *)
Record summary_row : Type := mk_row {
  row_label : string;
  row_TP : Z;
  row_FP : Z;
  row_FN : Z
}.

(** The loop of lines 121-127, with [summary] as its state. *)
Fixpoint summary_loop (cm : list (list Z)) (todo : list (nat * string))
    (summary : list summary_row) : res (list summary_row) :=
  match todo with
  | [] => Ok summary
  | (i, lbl) :: todo' =>
      if decide (lbl = O_label) then summary_loop cm todo' summary
      else
        tp ← cm_at cm i i;
        col ← cm_col cm i;
        row ← cm_row cm i;
        summary_loop cm todo'
          (summary ++ [mk_row lbl tp (Py.sum col - tp) (Py.sum row - tp)])
  end.

Definition summary_table (labels : list string) (cm : list (list Z))
    : res (list summary_row) :=
  summary_loop cm (Py.enumerate labels) [].

(** Everything one call of [evaluate] prints. *)
Record report {Off : Type} : Type := mk_report {
  rep_outcomes : list (outcome * span Off);
  rep_classification : list (string * sklearn.prf);
  rep_labels : list string;
  rep_cm : list (list Z);
  rep_summary : list summary_row
}.
Arguments report Off : clear implicits.

Section evaluate.
Context {Off : Type} `{Countable Off}.

(** Steps 2 to 5, on the predictions already extracted from the document. *)
Definition evaluate_spans (gold_spans pred : list (span Off))
    : res (report Off) :=
  let lines := outcome_lines gold_spans pred in
  let ys := build_y gold_spans pred in
  cr ← sklearn.classification_report ys.1 ys.2;
  let ls := labels ys in
  cm ← sklearn.confusion_matrix ys.1 ys.2 ls;
  sm ← summary_table ls cm;
  mret (mk_report Off lines cr ls cm sm).

(** The inference engine: [nlp(text).ents], each entity given by
    [(start_char, end_char, label_)] with integer offsets; [of_int] is the
    view of a Python [int] in the offset type. *)
Context (of_int : Z → Off).

Definition ents_to_pred (ents : list (Z * Z * string)) : list (span Off) :=
  (λ ent, (of_int ent.1.1, of_int ent.1.2, ent.2)) <$> ents.

Definition evaluate (nlp : string → list (Z * Z * string)) (text : string)
    (gold_spans : list (span Off)) : res (report Off) :=
  evaluate_spans gold_spans (ents_to_pred (nlp text)).

End evaluate.

(** ** The script around [evaluate] *)

(** [load_spans]: the records under ["entities"], each turned into a tuple. *)
Definition load_spans (data : JSON.document) : res (list JSON.record) :=
  match data !! "entities" with
  | Some entities => Ok entities
  | None => Raise KeyError
  end.

(** [for (s, e, lbl) in gold_spans]: unpacking a tuple into three names. *)
Definition unpack (r : JSON.record)
    : res (JSON.value * JSON.value * JSON.value) :=
  match r with
  | [s; e; lbl] => Ok (s, e, lbl)
  | _ => Raise ValueError
  end.

(** One step of the set comprehension of line 64: unpack the record, then
    put the tuple into the set, which hashes its three fields. *)
Definition hash_record (r : JSON.record)
    : res (JSON.key * JSON.key * JSON.key) :=
  t ← unpack r;
  s ← JSON.hash t.1.1;
  e ← JSON.hash t.1.2;
  lbl ← JSON.hash t.2;
  mret (s, e, lbl).

(** The gold span of a tuple whose label is a [str]. *)
Definition str_label (t : JSON.key * JSON.key * JSON.key)
    : option (span JSON.key) :=
  match t.2 with
  | JSON.KStr l => Some (t.1.1, t.1.2, l)
  | _ => None
  end.

(** [evaluate] on the gold records as [load_spans] returns them.  The set
    comprehension of line 64 comes first and raises on the first record
    that cannot be unpacked or hashed.  When a label is not a [str], what
    follows depends on the conversions NumPy applies to mixed lists inside
    scikit-learn; that case is not represented, and the result is [None]. *)
Definition evaluate_records (nlp : string → list (Z * Z * string))
    (text : string) (gold_spans : list JSON.record)
    : option (res (report JSON.key)) :=
  let pred := ents_to_pred JSON.KInt (nlp text) in
  match res_mapM hash_record gold_spans with
  | Raise e => Some (Raise e)
  | Ok triples =>
      (λ gold, evaluate_spans gold pred) <$> mapM str_label triples
  end.

(** The [__main__] block, given the loaded pipeline, the text of the
    document and the parsed annotation file. *)
Definition main (nlp : string → list (Z * Z * string)) (text : string)
    (data : JSON.document) : option (res (report JSON.key)) :=
  match load_spans data with
  | Ok gold_spans => evaluate_records nlp text gold_spans
  | Raise e => Some (Raise e)
  end.

(** ** Views used to state the properties *)

Section views.
Context {Off : Type} `{Countable Off}.
Implicit Types (gold pred : list (span Off)) (gs : gset (span Off)).
Implicit Types (g p t : span Off).

(** What the loop of lines 68-71 writes at the position of [p]. *)
Definition status_of gs p : outcome :=
  if decide (p ∈ gs) then TP else FP.

(** The predictions taken by the loop of lines 100-103. *)
Definition false_positives gold pred : list (span Off) :=
  filter (λ p, p ∉ gold_set gold) pred.

(** The (true label, predicted label) pair appended for a gold span. *)
Definition gold_pair gold pred g : string * string :=
  (span_label g,
   if decide (gold_found (gold_set gold) pred g) then span_label g
   else O_label).

Definition fp_pair p : string * string := (O_label, span_label p).

Definition emitted_pairs gold pred : list (string * string) :=
  (gold_pair gold pred <$> gold) ++ (fp_pair <$> false_positives gold pred).

(** How many predictions equal to [t] carry the tag [o]. *)
Definition tagged_count (o : outcome) t gold pred : nat :=
  length (filter (λ x, x = (o, t)) (zip (pred_status gold pred) pred)).

(** How many gold occurrences of [t] take the FN branch of line 97. *)
Definition missed_count t gold pred : nat :=
  length (filter (λ g, g = t ∧ ¬ gold_found (gold_set gold) pred g) gold).

(** Number of spans of a list that carry label [L]. *)
Definition label_count (L : string) (l : list (span Off)) : Z :=
  Z.of_nat (length (filter (λ sp, span_label sp = L) l)).

(** Gold spans of label [L] found among the predictions. *)
Definition found_count (L : string) gold pred : Z :=
  Z.of_nat (length (filter
    (λ g, span_label g = L ∧ gold_found (gold_set gold) pred g) gold)).

(** The confusion table of a report as a mapping from labels to counts. *)
Definition index_of (l : string) (ls : list string) : option nat :=
  fst <$> list_find (λ x, x = l) ls.

Definition confusion (rep : report Off) (a b : string) : Z :=
  match index_of a (rep_labels rep), index_of b (rep_labels rep) with
  | Some i, Some j =>
      match cm_at (rep_cm rep) i j with Ok z => z | Raise _ => 0 end
  | _, _ => 0
  end.

Definition col_sum (rep : report Off) (L : string) : Z :=
  Py.sum ((λ a, confusion rep a L) <$> rep_labels rep).

Definition row_sum (rep : report Off) (L : string) : Z :=
  Py.sum ((λ b, confusion rep L b) <$> rep_labels rep).

(** The row of the classification report for label [L], if any. *)
Definition report_row (rep : report Off) (L : string)
    : option sklearn.prf :=
  (λ r, r.2.2) <$> list_find (λ r, r.1 = L) (rep_classification rep).

End views.

(** Number of occurrences of [t] in [l]. *)
Definition occurrences {A} `{EqDecision A} (t : A) (l : list A) : nat :=
  length (filter (λ x, x = t) l).

(** Every triple of label [L] present on both sides is repeated equally
    often on both sides. *)
Definition multiplicities_agree {Off} `{Countable Off} (L : string)
    (gold pred : list (span Off)) : Prop :=
  ∀ t, span_label t = L → t ∈ gold → t ∈ pred →
       occurrences t gold = occurrences t pred.

(** Bag accounting as section 4.1 of the specification words it: of the
    [M] predictions equal to [t], [min N M] are TP and [max 0 (M - N)] FP,
    and [max 0 (N - M)] of its [N] gold occurrences are missed. *)
Definition bag_accounting {Off} `{Countable Off} (gold pred : list (span Off))
    (t : span Off) : Prop :=
  let N := occurrences t gold in
  let M := occurrences t pred in
  tagged_count TP t gold pred = Nat.min N M
  ∧ tagged_count FP t gold pred = Nat.max 0 (M - N)
  ∧ missed_count t gold pred = Nat.max 0 (N - M).

(** The table as a matrix: row [a], column [b] holds [f a b]. *)
Definition matrix_of (f : string → string → Z) (ls : list string)
    : list (list Z) :=
  (λ a, f a <$> ls) <$> ls.

(** Row of the last table for label [l]. *)
Definition summary_of (f : string → string → Z) (ls : list string)
    (l : string) : summary_row :=
  mk_row l (f l l)
    (Py.sum ((λ a, f a l) <$> ls) - f l l)
    (Py.sum (f l <$> ls) - f l l).


(** A list or a dict among the fields of a record. *)
Definition unhashable (v : JSON.value) : Prop :=
  match v with
  | JSON.Array _ | JSON.Object _ => True
  | _ => False
  end.

#[global] Instance unhashable_dec (v : JSON.value) : Decision (unhashable v) :=
  match v return Decision (unhashable v) with
  | JSON.Array _ | JSON.Object _ => left I
  | _ => right (λ H, H)
  end.

(** The gold span [g] is what line 64 makes of the record [r]: three
    fields, two hashable offsets of any kind and a string label. *)
Definition keyed (r : JSON.record) (g : span JSON.key) : Prop :=
  ∃ s e, r = [s; e; JSON.Str g.2]
         ∧ JSON.hash s = Ok g.1.1 ∧ JSON.hash e = Ok g.1.2.

(** The triple line 64 puts into [gold_set] for a span with a string
    label. *)
Definition as_tuple (g : span JSON.key) : JSON.key * JSON.key * JSON.key :=
  (g.1.1, g.1.2, JSON.KStr g.2).

(** The record of a span with integer offsets. *)
Definition int_record (sp : span Z) : JSON.record :=
  [JSON.Int sp.1.1; JSON.Int sp.1.2; JSON.Str sp.2].

(** Sample inputs: the spans of section 8 of the specification, and a
    gold record whose offsets are reversed and lie beyond a short text. *)
Definition span_A : span Z := (0, 5, "A").
Definition span_B : span Z := (7, 9, "B").
Definition span_X : span Z := (0, 3, "X").
Definition span_O : span Z := (7, 9, "O").
Definition no_entities : string → list (Z * Z * string) := λ _, [].


(** ** Reading the document *)

(** [text_from_docx]: the texts of the paragraphs of the document, joined
    by a single line feed.  The document is given by the list of its
    paragraph texts; one character of a string stands for one character of
    the Python text. *)
Definition line_feed : string := String (Ascii.ascii_of_nat 10) "".

Definition text_from_docx (paragraphs : list string) : string :=
  String.concat line_feed paragraphs.

(** [text[a:b]] for offsets [0 <= a] and [0 <= b]: the characters from [a]
    up to [b], cut at the end of the text, empty when [b <= a]. *)
Definition py_slice (text : string) (a b : nat) : string :=
  String.substring a (b - a) text.

(** Offset of the first character of paragraph [i] in the joined text. *)
Definition paragraph_start (paragraphs : list string) (i : nat) : nat :=
  sum_list ((λ p, S (String.length p)) <$> take i paragraphs).

(** [cm.sum()]: the sum of all cells of the matrix. *)
Definition cm_total (cm : list (list Z)) : Z := Py.sum (Py.sum <$> cm).

(** Outcome lines of label [L] that carry the tag [o]. *)
Definition tagged_label_count {Off} `{Countable Off} (o : outcome)
    (L : string) (lines : list (outcome * span Off)) : Z :=
  Z.of_nat (length (filter (λ x, x.1 = o ∧ span_label x.2 = L) lines)).

(** The view of a span with integer offsets among the spans whose offsets
    are hashed values of the annotation file. *)
Definition int_span (sp : span Z) : span JSON.key :=
  (JSON.KInt sp.1.1, JSON.KInt sp.1.2, sp.2).

(** Further sample inputs: a document of two paragraphs, a pipeline that
    finds one entity, and an annotation file with one integer record. *)
Definition two_paragraphs : list string := ["ab"; "cde"].
Definition finds_A : string → list (Z * Z * string) := λ _, [(0, 5, "A")].
Definition integer_file : JSON.document :=
  {[ "entities" := [[JSON.Int 0; JSON.Int 5; JSON.Str "A"]] ]}.

(** * Properties *)

(** ** Closed forms of the loops *)

Section matcher_facts.
Context {Off : Type} `{Countable Off}.
Implicit Types (gold pred rest : list (span Off)) (gs : gset (span Off)).
Implicit Types (g p t : span Off).

Lemma match_loop_status gs rest : ∀ i ps mp,
  length ps = (i + length rest)%nat →
  drop i ps = replicate (length rest) FP →
  (foldl (match_step gs) (ps, mp) (zip (seq i (length rest)) rest)).1
  = take i ps ++ (status_of gs <$> rest).
Proof.
  induction rest as [|p rest IH]; intros i ps mp Hlen Hdrop; simpl in *.
  - rewrite app_nil_r, take_ge; [done | lia].
  - assert (ps !! i = Some FP) as Hi.
    { rewrite <- (Nat.add_0_r i), <- lookup_drop, Hdrop. done. }
    assert (drop (S i) ps = replicate (length rest) FP) as Hdrop'.
    { rewrite (drop_S _ _ _ Hi) in Hdrop. by simplify_eq/=. }
    unfold match_step at 2, status_of at 1; simpl.
    destruct (decide (p ∈ gs)).
    + rewrite IH.
      * rewrite (take_S_r _ _ TP).
        -- rewrite take_insert_ge by lia. by rewrite <- app_assoc.
        -- apply list_lookup_insert_eq. apply lookup_lt_Some in Hi. done.
      * rewrite length_insert. lia.
      * rewrite drop_insert_lt by lia. done.
    + rewrite IH by (done || lia).
      rewrite (take_S_r _ _ FP) by done. by rewrite <- app_assoc.
Qed.

Lemma match_loop_matched gs rest : ∀ i ps mp j,
  j ∈ (foldl (match_step gs) (ps, mp) (zip (seq i (length rest)) rest)).2
  ↔ j ∈ mp ∨ (i ≤ j)%nat ∧ ∃ p, rest !! (j - i)%nat = Some p ∧ p ∈ gs.
Proof.
  induction rest as [|p rest IH]; intros i ps mp j; simpl.
  - split; [auto | intros [?|[_ (? & ? & _)]]; done].
  - unfold match_step at 2; simpl.
    destruct (decide (p ∈ gs)) as [Hp|Hp]; rewrite IH; clear IH.
    + rewrite elem_of_union, elem_of_singleton. split.
      * intros [[->|?]|[Hle (q & Hq & Hin)]]; [|by left|].
        -- right. split; [lia|]. exists p. by rewrite Nat.sub_diag.
        -- right. split; [lia|]. exists q.
           by replace (j - i)%nat with (S (j - S i)) by lia.
      * intros [?|[Hle (q & Hq & Hin)]]; [by left; right|].
        destruct (decide (j = i)) as [->|Hne]; [by left; left|].
        right. split; [lia|]. exists q.
        by replace (j - i)%nat with (S (j - S i)) in Hq by lia.
    + split.
      * intros [?|[Hle (q & Hq & Hin)]]; [by left|].
        right. split; [lia|]. exists q.
        by replace (j - i)%nat with (S (j - S i)) by lia.
      * intros [?|[Hle (q & Hq & Hin)]]; [by left|].
        destruct (decide (j = i)) as [->|Hne].
        { rewrite Nat.sub_diag in Hq. by simplify_eq/=. }
        right. split; [lia|]. exists q.
        by replace (j - i)%nat with (S (j - S i)) in Hq by lia.
Qed.

(** Lines 66-71: a prediction is tagged TP exactly when its triple is a
    member of [gold_set]. *)
Lemma pred_status_eq gold pred :
  pred_status gold pred = status_of (gold_set gold) <$> pred.
Proof.
  unfold pred_status, match_preds, Py.enumerate.
  rewrite match_loop_status; [done | by rewrite length_replicate | done].
Qed.

Lemma matched_preds_spec gold pred j :
  j ∈ matched_preds gold pred
  ↔ ∃ p, pred !! j = Some p ∧ p ∈ gold_set gold.
Proof.
  unfold matched_preds, match_preds, Py.enumerate.
  rewrite match_loop_matched, Nat.sub_0_r. split.
  - by intros [?%not_elem_of_empty|[_ ?]].
  - intros ?. right. split; [lia | done].
Qed.

Lemma gold_loop gs pred gold : ∀ ys : y_lists,
  foldl (gold_step gs pred) ys gold
  = (ys.1 ++ (span_label <$> gold),
     ys.2 ++ ((λ g, if decide (gold_found gs pred g)
                    then span_label g else O_label) <$> gold)).
Proof.
  induction gold as [|g gold IH]; intros [y1 y2]; simpl.
  - by rewrite !app_nil_r.
  - rewrite IH. unfold gold_step; simpl.
    destruct (decide (gold_found gs pred g)); simpl;
      by rewrite <- !app_assoc.
Qed.

Lemma fp_loop (mp : gset nat) rest : ∀ i (ys : y_lists),
  foldl (fp_step mp) ys (zip (seq i (length rest)) rest)
  = let fps := (filter (λ ip, ip.1 ∉ mp) (zip (seq i (length rest)) rest)).*2 in
    (ys.1 ++ ((λ _, O_label) <$> fps), ys.2 ++ (span_label <$> fps)).
Proof.
  induction rest as [|p rest IH]; intros i [y1 y2]; simpl.
  - by rewrite !app_nil_r.
  - rewrite IH. unfold fp_step; simpl. rewrite filter_cons; simpl.
    destruct (decide (i ∉ mp)); simpl; [|done].
    by rewrite <- !app_assoc.
Qed.

Lemma enumerate_filter {A} (P : nat * A → Prop) (Q : A → Prop)
    `{∀ x, Decision (P x)} `{∀ x, Decision (Q x)} (rest : list A) : ∀ i,
  (∀ k x, rest !! k = Some x → P ((i + k)%nat, x) ↔ Q x) →
  (filter P (zip (seq i (length rest)) rest)).*2 = filter Q rest.
Proof.
  induction rest as [|x rest IH]; intros i HPQ; simpl; [done|].
  rewrite !filter_cons.
  assert ((filter P (zip (seq (S i) (length rest)) rest)).*2 = filter Q rest)
    as IH'.
  { apply IH. intros k y Hk. rewrite <- (HPQ (S k) y Hk).
    by replace (i + S k)%nat with (S i + k)%nat by lia. }
  pose proof (HPQ 0%nat x eq_refl) as Hx. rewrite Nat.add_0_r in Hx.
  repeat case_decide; try tauto; csimpl; by rewrite IH'.
Qed.

(** Lines 89-103 in closed form. *)
Lemma build_y_eq gold pred :
  build_y gold pred
  = ((span_label <$> gold)
       ++ ((λ _, O_label) <$> false_positives gold pred),
     ((λ g, (gold_pair gold pred g).2) <$> gold)
       ++ (span_label <$> false_positives gold pred)).
Proof.
  unfold build_y, Py.enumerate. rewrite gold_loop, fp_loop; simpl.
  rewrite (enumerate_filter _ (λ p, p ∉ gold_set gold)); [done|].
  intros k p Hk; simpl. rewrite matched_preds_spec. split.
  - intros Hn Hin. apply Hn. by exists p.
  - intros Hn (q & Hq & Hin). by simplify_eq.
Qed.

Lemma build_y_length gold pred :
  length (build_y gold pred).1 = length (build_y gold pred).2.
Proof. rewrite build_y_eq; simpl. by rewrite !length_app, !length_fmap. Qed.

Lemma build_y_zip gold pred :
  zip (build_y gold pred).1 (build_y gold pred).2 = emitted_pairs gold pred.
Proof.
  rewrite build_y_eq; simpl. unfold emitted_pairs.
  rewrite zip_with_app by (by rewrite !length_fmap).
  rewrite !zip_with_fmap_l, !zip_with_fmap_r, !zip_with_diag.
  done.
Qed.

End matcher_facts.

Section aggregator_facts.
Implicit Types (ys : y_lists) (ls : list string) (f : string → string → Z).

Lemma sorted_elem (s : gset string) x : x ∈ Py.sorted s ↔ x ∈ s.
Proof.
  unfold Py.sorted. rewrite merge_sort_Permutation. apply elem_of_elements.
Qed.

Lemma sorted_NoDup (s : gset string) : NoDup (Py.sorted s).
Proof.
  unfold Py.sorted. rewrite merge_sort_Permutation. apply NoDup_elements.
Qed.

Lemma real_labels_elem ys x :
  x ∈ real_labels ys ↔ x ≠ O_label ∧ x ∈ ys.1 ++ ys.2.
Proof.
  unfold real_labels.
  by rewrite sorted_elem, elem_of_list_to_set, list_elem_of_filter.
Qed.

Lemma labels_elem ys x : x ∈ labels ys ↔ x = O_label ∨ x ∈ ys.1 ++ ys.2.
Proof.
  unfold labels.
  rewrite elem_of_app, real_labels_elem, list_elem_of_singleton.
  destruct (decide (x = O_label)); tauto.
Qed.

Lemma labels_NoDup ys : NoDup (labels ys).
Proof.
  unfold labels. apply NoDup_app. split; [apply sorted_NoDup|]. split.
  - intros x [Hx _]%real_labels_elem ->%list_elem_of_singleton. done.
  - apply NoDup_singleton.
Qed.

Lemma filter_all {A} (P : A → Prop) `{∀ x, Decision (P x)} (l : list A) :
  Forall P l → filter P l = l.
Proof.
  induction 1 as [|x l Hx _ IH]; [done|].
  by rewrite filter_cons, decide_True, IH.
Qed.

Lemma labels_filter ys :
  filter (λ l, l ≠ O_label) (labels ys) = real_labels ys.
Proof.
  unfold labels. rewrite filter_app, filter_all.
  - rewrite filter_cons, decide_False by (by intros ?). apply app_nil_r.
  - apply Forall_forall. by intros x [? _]%real_labels_elem.
Qed.

Lemma confusion_matrix_labels (y1 y2 : list string) :
  length y1 = length y2 →
  sklearn.confusion_matrix y1 y2 (labels (y1, y2))
  = Ok (matrix_of (sklearn.count_pair y1 y2) (labels (y1, y2))).
Proof.
  intros Hlen. unfold sklearn.confusion_matrix.
  rewrite decide_False by (by intros ?).
  rewrite decide_False by (unfold labels; by intros ?%app_eq_nil%proj2).
  destruct (decide (y1 = [])) as [->|Hne]; [done|].
  rewrite decide_False; [done|].
  destruct y1 as [|a y1]; [done|]. intros Hall.
  apply Forall_cons_1 in Hall as [Ha _]. apply Ha, labels_elem.
  right. simpl. by left.
Qed.

Lemma cm_at_matrix f ls i j a b :
  ls !! i = Some a → ls !! j = Some b →
  cm_at (matrix_of f ls) i j = Ok (f a b).
Proof.
  intros Hi Hj. unfold cm_at, matrix_of.
  by rewrite list_lookup_fmap, Hi; simpl; rewrite list_lookup_fmap, Hj.
Qed.

Lemma cm_col_matrix f ls j b :
  ls !! j = Some b →
  cm_col (matrix_of f ls) j = Ok ((λ a, f a b) <$> ls).
Proof.
  intros Hj. unfold cm_col, matrix_of.
  enough (∀ rows : list string,
    res_mapM (λ r : list Z,
                match r !! j with Some z => Ok z | None => Raise IndexError end)
             ((λ a, f a <$> ls) <$> rows)
    = Ok ((λ a, f a b) <$> rows)) as Hrows by apply Hrows.
  induction rows as [|a rows IH]; [done|]. csimpl.
  rewrite list_lookup_fmap, Hj; csimpl. by rewrite IH.
Qed.

Lemma cm_row_matrix f ls i a :
  ls !! i = Some a → cm_row (matrix_of f ls) i = Ok (f a <$> ls).
Proof.
  intros Hi. unfold cm_row, matrix_of. by rewrite list_lookup_fmap, Hi.
Qed.

Lemma summary_loop_matrix f ls rest : ∀ i acc,
  (∀ k l, rest !! k = Some l → ls !! (i + k)%nat = Some l) →
  summary_loop (matrix_of f ls) (zip (seq i (length rest)) rest) acc
  = Ok (acc ++ (summary_of f ls <$> filter (λ l, l ≠ O_label) rest)).
Proof.
  induction rest as [|l rest IH]; intros i acc Hls; simpl.
  - by rewrite app_nil_r.
  - assert (ls !! i = Some l) as Hi.
    { rewrite <- (Nat.add_0_r i). by apply Hls. }
    assert (∀ k l', rest !! k = Some l' → ls !! (S i + k)%nat = Some l')
      as Hls'.
    { intros k l' Hk. replace (S i + k)%nat with (i + S k)%nat by lia.
      by apply Hls. }
    rewrite filter_cons. destruct (decide (l = O_label)) as [->|Hne].
    + rewrite decide_False by (by intros ?). by apply IH.
    + rewrite decide_True by done.
      rewrite (cm_at_matrix f ls i i l l), (cm_col_matrix f ls i l),
        (cm_row_matrix f ls i l) by done.
      simpl. rewrite IH by done. by rewrite <- app_assoc.
Qed.

Lemma summary_table_matrix f ls :
  summary_table ls (matrix_of f ls)
  = Ok (summary_of f ls <$> filter (λ l, l ≠ O_label) ls).
Proof.
  unfold summary_table, Py.enumerate. by rewrite summary_loop_matrix.
Qed.

End aggregator_facts.

Section evaluate_facts.
Context {Off : Type} `{Countable Off}.
Implicit Types (gold pred : list (span Off)).

Lemma build_y_nonempty gold pred :
  gold ++ pred ≠ [] → (build_y gold pred).1 ≠ [].
Proof.
  intros Hne. rewrite build_y_eq. simpl.
  destruct gold as [|g gold]; [|done]. simpl in *.
  destruct pred as [|p pred]; [done|].
  unfold false_positives. rewrite filter_cons, decide_True; [done|].
  apply not_elem_of_empty.
Qed.

Lemma unique_labels_nonempty (y1 y2 : list string) :
  y1 ≠ [] → sklearn.unique_labels y1 y2 ≠ [].
Proof.
  destruct y1 as [|a y1]; [done|]. intros _ Hnil.
  assert (a ∈ sklearn.unique_labels (a :: y1) y2) as Hin.
  { unfold sklearn.unique_labels.
    rewrite sorted_elem, elem_of_list_to_set. by left. }
  rewrite Hnil in Hin. by apply not_elem_of_nil in Hin.
Qed.

(** With no gold span and no prediction the report has no label to show
    and line 107 raises. *)
Lemma evaluate_spans_empty : evaluate_spans (Off := Off) [] [] = Raise ValueError.
Proof. by vm_compute. Qed.

(** In every other case [evaluate] returns, and this is what it prints. *)
Lemma evaluate_spans_eq gold pred :
  gold ++ pred ≠ [] →
  evaluate_spans gold pred
  = let ys := build_y gold pred in
    let ls := labels ys in
    let f := sklearn.count_pair ys.1 ys.2 in
    Ok (mk_report Off
          (outcome_lines gold pred)
          ((λ l, (l, sklearn.class_row ys.1 ys.2 l))
             <$> sklearn.unique_labels ys.1 ys.2)
          ls
          (matrix_of f ls)
          (summary_of f ls <$> real_labels ys)).
Proof.
  intros Hne. unfold evaluate_spans, sklearn.classification_report.
  pose proof (build_y_length gold pred) as Hlen.
  pose proof (build_y_nonempty gold pred Hne) as Hy.
  destruct (build_y gold pred) as [y1 y2]; simpl in *.
  rewrite decide_False by (by intros ?).
  rewrite decide_False by (by apply unique_labels_nonempty). simpl.
  rewrite confusion_matrix_labels by done. simpl.
  by rewrite summary_table_matrix, labels_filter.
Qed.

Lemma evaluate_spans_Ok gold pred rep :
  evaluate_spans gold pred = Ok rep → gold ++ pred ≠ [].
Proof.
  intros Hev Hnil. apply app_eq_nil in Hnil as [-> ->].
  by rewrite evaluate_spans_empty in Hev.
Qed.

Lemma evaluate_spans_Raise gold pred e :
  evaluate_spans gold pred = Raise e → e = ValueError ∧ gold ++ pred = [].
Proof.
  intros Hev. destruct (decide (gold ++ pred = [])) as [Hnil|Hne].
  - split; [|done]. apply app_eq_nil in Hnil as [-> ->].
    rewrite evaluate_spans_empty in Hev. by simplify_eq.
  - by rewrite (evaluate_spans_eq gold pred Hne) in Hev.
Qed.

End evaluate_facts.

(** ** Counting *)

Section counting.
Context {A : Type} {dec : EqDecision A}.
Implicit Types (l : list A) (t : A).

Lemma occurrences_cons t x l :
  occurrences t (x :: l)
  = ((if decide (x = t) then 1 else 0) + occurrences t l)%nat.
Proof. unfold occurrences. rewrite filter_cons. by case_decide. Qed.

Lemma occurrences_app t l1 l2 :
  occurrences t (l1 ++ l2) = (occurrences t l1 + occurrences t l2)%nat.
Proof. unfold occurrences. by rewrite filter_app, length_app. Qed.

Lemma occurrences_count_occ t l : occurrences t l = count_occ dec l t.
Proof.
  induction l as [|x l IH]; [done|].
  rewrite occurrences_cons, IH. simpl.
  unfold decide, decide_rel. by destruct (dec x t).
Qed.

Lemma occurrences_pos t l : (0 < occurrences t l)%nat ↔ t ∈ l.
Proof.
  rewrite occurrences_count_occ, list_elem_of_In.
  symmetry. apply count_occ_In.
Qed.

Lemma occurrences_zero t l : occurrences t l = 0%nat ↔ t ∉ l.
Proof. rewrite <- occurrences_pos. lia. Qed.

Lemma occurrences_filter (P : A → Prop) `{∀ x, Decision (P x)} t l :
  occurrences t (filter P l)
  = if decide (P t) then occurrences t l else 0%nat.
Proof.
  induction l as [|x l IH].
  - by case_decide.
  - rewrite filter_cons.
    destruct (decide (P x)) as [Hx|Hx];
      rewrite ?occurrences_cons, IH;
      destruct (decide (P t)) as [Ht|Ht]; try done.
    + rewrite decide_False; [done | by intros ->].
    + rewrite decide_False; [done | by intros ->].
Qed.

Lemma occurrences_Permutation l1 l2 :
  (∀ t, occurrences t l1 = occurrences t l2) → l1 ≡ₚ l2.
Proof.
  intros Hocc. apply (Permutation_count_occ dec). intros t.
  by rewrite <- !occurrences_count_occ.
Qed.

(** Filters by a conjunction with a fixed element. *)
Lemma length_filter_ext (P Q : A → Prop) `{∀ x, Decision (P x)}
    `{∀ x, Decision (Q x)} l :
  (∀ x, x ∈ l → P x ↔ Q x) → length (filter P l) = length (filter Q l).
Proof.
  intros HPQ. f_equal. induction l as [|x l IH]; [done|].
  rewrite !filter_cons.
  assert (P x ↔ Q x) as Hx by (apply HPQ; by left).
  rewrite IH by (intros y Hy; apply HPQ; by right).
  repeat case_decide; tauto || done.
Qed.

Lemma length_filter_none (P : A → Prop) `{∀ x, Decision (P x)} l :
  (∀ x, x ∈ l → ¬ P x) → length (filter P l) = 0%nat.
Proof.
  induction l as [|x l IH]; intros HP; [done|].
  rewrite filter_cons_False by (apply HP; by left).
  apply IH. intros y Hy. apply HP. by right.
Qed.

Lemma length_filter_split (P Q : A → Prop) `{∀ x, Decision (P x)}
    `{∀ x, Decision (Q x)} l :
  length (filter P l)
  = (length (filter (λ x, P x ∧ Q x) l)
     + length (filter (λ x, P x ∧ ¬ Q x) l))%nat.
Proof.
  induction l as [|x l IH]; [done|].
  rewrite !filter_cons.
  destruct (decide (P x)), (decide (Q x));
    repeat case_decide; simpl; try tauto; lia.
Qed.

End counting.

Section sums.
Implicit Types (ls : list string).

Lemma sum_fmap_add {B} (g h : B → Z) (l : list B) :
  Py.sum ((λ b, g b + h b) <$> l) = Py.sum (g <$> l) + Py.sum (h <$> l).
Proof.
  unfold Py.sum. induction l as [|b l IH]; csimpl; [done | rewrite IH; lia].
Qed.

Lemma sum_fmap_ext {B} (g h : B → Z) (l : list B) :
  (∀ b, b ∈ l → g b = h b) → Py.sum (g <$> l) = Py.sum (h <$> l).
Proof.
  intros Hgh. f_equal. apply list_fmap_ext. intros i b Hb.
  apply Hgh. by apply list_elem_of_lookup_2 in Hb.
Qed.

Lemma sum_fmap_zero {B} (g : B → Z) (l : list B) :
  (∀ b, b ∈ l → g b = 0) → Py.sum (g <$> l) = 0.
Proof.
  unfold Py.sum. induction l as [|b l IH]; intros Hz; csimpl; [done|].
  rewrite Hz by (by left). rewrite IH; [done|]. intros ??. apply Hz. by right.
Qed.

Lemma sum_indicator ls (x : string) :
  NoDup ls →
  Py.sum ((λ b, if decide (x = b) then 1 else 0) <$> ls)
  = if decide (x ∈ ls) then 1 else 0.
Proof.
  unfold Py.sum. induction 1 as [|b ls Hb _ IH]; csimpl; [done|].
  rewrite IH. destruct (decide (x = b)) as [->|Hne].
  - rewrite decide_False by done.
    rewrite decide_True; [done | by left].
  - destruct (decide (x ∈ ls)).
      * rewrite decide_True; [done | by right].
      * rewrite decide_False; [done|]. by intros [?|?]%elem_of_cons.
Qed.

(** Summing a row of counts over a duplicate-free label list counts the
    pairs whose first component is the row label. *)
Lemma row_sum_count (y1 y2 : list string) ls a :
  NoDup ls →
  (∀ p, p ∈ zip y1 y2 → p.1 = a → p.2 ∈ ls) →
  Py.sum (sklearn.count_pair y1 y2 a <$> ls)
  = Z.of_nat (length (filter (λ p, p.1 = a) (zip y1 y2))).
Proof.
  intros Hnd. unfold sklearn.count_pair.
  induction (zip y1 y2) as [|p ps IH]; intros Hin.
  - simpl. by apply sum_fmap_zero.
  - rewrite filter_cons.
    rewrite (sum_fmap_ext _ (λ b,
      (if decide (p = (a, b)) then 1 else 0)
      + Z.of_nat (length (filter (λ q, q = (a, b)) ps)))).
    2:{ intros b _. simpl. rewrite filter_cons.
        case_decide; simpl; lia. }
    rewrite sum_fmap_add, IH by (intros q Hq; apply Hin; by right).
    destruct p as [p1 p2]. simpl.
    destruct (decide (p1 = a)) as [->|Hne]; simpl.
    + rewrite (sum_fmap_ext _ (λ b, if decide (p2 = b) then 1 else 0)).
      2:{ intros b _. simpl. repeat case_decide; simplify_eq; done. }
      rewrite sum_indicator, decide_True by (done || by apply (Hin (a, p2)); [left|]).
      lia.
    + rewrite sum_fmap_zero; [lia|].
      intros b _. rewrite decide_False; [done | by intros [= ]].
Qed.

Lemma col_sum_count (y1 y2 : list string) ls b :
  NoDup ls →
  (∀ p, p ∈ zip y1 y2 → p.2 = b → p.1 ∈ ls) →
  Py.sum ((λ a, sklearn.count_pair y1 y2 a b) <$> ls)
  = Z.of_nat (length (filter (λ p, p.2 = b) (zip y1 y2))).
Proof.
  intros Hnd. unfold sklearn.count_pair.
  induction (zip y1 y2) as [|p ps IH]; intros Hin.
  - simpl. by apply sum_fmap_zero.
  - rewrite filter_cons.
    rewrite (sum_fmap_ext _ (λ a,
      (if decide (p = (a, b)) then 1 else 0)
      + Z.of_nat (length (filter (λ q, q = (a, b)) ps)))).
    2:{ intros a _. simpl. rewrite filter_cons.
        case_decide; simpl; lia. }
    rewrite sum_fmap_add, IH by (intros q Hq; apply Hin; by right).
    destruct p as [p1 p2]. simpl.
    destruct (decide (p2 = b)) as [->|Hne]; simpl.
    + rewrite (sum_fmap_ext _ (λ a, if decide (p1 = a) then 1 else 0)).
      2:{ intros a _. simpl. repeat case_decide; simplify_eq; done. }
      rewrite sum_indicator, decide_True by (done || by apply (Hin (p1, b)); [left|]).
      lia.
    + rewrite sum_fmap_zero; [lia|].
      intros a _. rewrite decide_False; [done | by intros [= ]].
Qed.

End sums.

(** ** The emitted pairs and the table built from them *)

Section table_facts.
Context {Off : Type} `{Countable Off}.
Implicit Types (gold pred : list (span Off)) (g p t : span Off).
Implicit Types (L : string).

Lemma length_filter_fmap {A B} (f : A → B) (P : B → Prop)
    `{∀ y, Decision (P y)} (l : list A) :
  length (filter P (f <$> l)) = length (filter (λ x, P (f x)) l).
Proof.
  induction l as [|x l IH]; [done|]. csimpl.
  rewrite !filter_cons. case_decide; simpl; by rewrite IH.
Qed.

Lemma gold_found_iff gold pred g :
  g ∈ gold → gold_found (gold_set gold) pred g ↔ g ∈ pred.
Proof.
  intros Hg. unfold gold_found, gold_set.
  rewrite elem_of_intersection, !elem_of_list_to_set. tauto.
Qed.

Lemma emitted_pairs_labels gold pred q :
  q ∈ emitted_pairs gold pred →
  q.1 ∈ labels (build_y gold pred) ∧ q.2 ∈ labels (build_y gold pred).
Proof.
  rewrite <- build_y_zip. destruct q as [a b]. intros Hq.
  rewrite !labels_elem, !elem_of_app. split; right.
  - left. by apply elem_of_zip_l in Hq.
  - right. by apply elem_of_zip_r in Hq.
Qed.

Lemma cell_diag gold pred L :
  L ≠ O_label →
  sklearn.count_pair (build_y gold pred).1 (build_y gold pred).2 L L
  = found_count L gold pred.
Proof.
  intros HL. unfold sklearn.count_pair, found_count.
  rewrite build_y_zip. unfold emitted_pairs.
  rewrite filter_app, length_app, !length_filter_fmap.
  rewrite (length_filter_none (λ x, fp_pair x = (L, L))).
  2:{ intros p _. unfold fp_pair. by intros [= <- _]. }
  rewrite (length_filter_ext (λ x, gold_pair gold pred x = (L, L))
             (λ g, span_label g = L
                   ∧ gold_found (gold_set gold) pred g)).
  2:{ intros g _. unfold gold_pair. case_decide; split.
      - by intros [= ->].
      - by intros [-> _].
      - intros [= -> ?]. done.
      - by intros [_ ?]. }
  f_equal. lia.
Qed.

Lemma row_pairs gold pred L :
  L ≠ O_label →
  Z.of_nat (length (filter (λ q, q.1 = L) (emitted_pairs gold pred)))
  = label_count L gold.
Proof.
  intros HL. unfold emitted_pairs, label_count.
  rewrite filter_app, length_app, !length_filter_fmap.
  rewrite (length_filter_none (λ x, (fp_pair x).1 = L)).
  2:{ intros p _. simpl. by intros <-. }
  f_equal. simpl. lia.
Qed.

Lemma col_pairs gold pred L :
  L ≠ O_label →
  Z.of_nat (length (filter (λ q, q.2 = L) (emitted_pairs gold pred)))
  = found_count L gold pred + label_count L (false_positives gold pred).
Proof.
  intros HL. unfold emitted_pairs, label_count, found_count.
  rewrite filter_app, length_app, !length_filter_fmap, Nat2Z.inj_add.
  f_equal. f_equal. apply length_filter_ext. intros g _.
  unfold gold_pair; simpl. case_decide; split.
  - done.
  - by intros [? _].
  - by intros <-.
  - by intros [_ ?].
Qed.

Lemma cell_off gold pred L1 L2 :
  L1 ≠ L2 → L1 ≠ O_label → L2 ≠ O_label →
  sklearn.count_pair (build_y gold pred).1 (build_y gold pred).2 L1 L2 = 0.
Proof.
  intros Hne H1 H2. unfold sklearn.count_pair.
  rewrite build_y_zip, length_filter_none; [done|].
  intros q Hq ->. unfold emitted_pairs in Hq.
  apply elem_of_app in Hq as [Hq|Hq];
    apply list_elem_of_fmap in Hq as (x & Hx & _).
  - unfold gold_pair in Hx. case_decide; by simplify_eq.
  - unfold fp_pair in Hx. by simplify_eq.
Qed.

Lemma row_total gold pred L :
  L ≠ O_label →
  let ys := build_y gold pred in
  Py.sum (sklearn.count_pair ys.1 ys.2 L <$> labels ys)
  = label_count L gold.
Proof.
  intros HL ys. rewrite row_sum_count.
  - unfold ys. rewrite build_y_zip. by apply row_pairs.
  - apply labels_NoDup.
  - unfold ys. rewrite build_y_zip. intros q Hq _.
    by apply emitted_pairs_labels.
Qed.

Lemma col_total gold pred L :
  L ≠ O_label →
  let ys := build_y gold pred in
  Py.sum ((λ a, sklearn.count_pair ys.1 ys.2 a L) <$> labels ys)
  = found_count L gold pred + label_count L (false_positives gold pred).
Proof.
  intros HL ys. rewrite col_sum_count.
  - unfold ys. rewrite build_y_zip. by apply col_pairs.
  - apply labels_NoDup.
  - unfold ys. rewrite build_y_zip. intros q Hq _.
    by apply emitted_pairs_labels.
Qed.

(** Predictions of label [L]: those whose triple is in [gold_set] and the
    false positives. *)
Lemma label_count_pred gold pred L :
  label_count L pred
  = Z.of_nat (length (filter
      (λ p, span_label p = L ∧ p ∈ gold_set gold) pred))
    + label_count L (false_positives gold pred).
Proof.
  unfold label_count, false_positives.
  rewrite (length_filter_split _ (λ p, p ∈ gold_set gold)), Nat2Z.inj_add.
  f_equal. f_equal. rewrite list_filter_filter.
  apply length_filter_ext. intros p _. tauto.
Qed.

(** With equal multiplicities, as many gold spans are found among the
    predictions as predictions are found in [gold_set]. *)
Lemma found_count_agree gold pred L :
  multiplicities_agree L gold pred →
  found_count L gold pred
  = Z.of_nat (length (filter
      (λ p, span_label p = L ∧ p ∈ gold_set gold) pred)).
Proof.
  intros Hagree. unfold found_count. f_equal.
  apply Permutation_length, occurrences_Permutation. intros t.
  rewrite !occurrences_filter.
  unfold gold_found, gold_set.
  destruct (decide (t ∈ gold)) as [Hg|Hg];
    destruct (decide (t ∈ pred)) as [Hp|Hp];
    destruct (decide (span_label t = L)) as [Hl|Hl];
    repeat case_decide;
    rewrite ?elem_of_intersection, ?elem_of_list_to_set in *;
    try tauto.
  - by apply Hagree.
  - symmetry. by apply occurrences_zero.
Qed.

End table_facts.

(** ** Reading a report by label *)

Section report_facts.
Context {Off : Type} `{Countable Off}.
Implicit Types (rep : report Off) (f : string → string → Z).

Lemma index_of_elem (ls : list string) a :
  a ∈ ls → ∃ i, index_of a ls = Some i ∧ ls !! i = Some a.
Proof.
  intros Ha.
  destruct (list_find_elem_of (λ x, x = a) ls a Ha eq_refl) as [[i x] Hf].
  unfold index_of. rewrite Hf.
  apply list_find_Some in Hf as (Hi & -> & _). by exists i.
Qed.

Lemma confusion_of_matrix rep f a b :
  rep_cm rep = matrix_of f (rep_labels rep) →
  a ∈ rep_labels rep → b ∈ rep_labels rep →
  confusion rep a b = f a b.
Proof.
  intros Hcm (i & Hia & Hi)%index_of_elem (j & Hjb & Hj)%index_of_elem.
  unfold confusion. rewrite Hia, Hjb, Hcm.
  by rewrite (cm_at_matrix f _ i j a b).
Qed.

Lemma col_sum_of_matrix rep f L :
  rep_cm rep = matrix_of f (rep_labels rep) → L ∈ rep_labels rep →
  col_sum rep L = Py.sum ((λ a, f a L) <$> rep_labels rep).
Proof.
  intros Hcm HL. unfold col_sum. apply sum_fmap_ext.
  intros a Ha. by apply confusion_of_matrix.
Qed.

Lemma row_sum_of_matrix rep f L :
  rep_cm rep = matrix_of f (rep_labels rep) → L ∈ rep_labels rep →
  row_sum rep L = Py.sum (f L <$> rep_labels rep).
Proof.
  intros Hcm HL. unfold row_sum. apply sum_fmap_ext.
  intros a Ha. by apply confusion_of_matrix.
Qed.

Lemma summary_row_unique f (ls' ls : list string) L :
  NoDup ls → L ∈ ls →
  filter (λ r, row_label r = L) (summary_of f ls' <$> ls)
  = [summary_of f ls' L].
Proof.
  induction 1 as [|l ls Hl Hnd IH]; intros Hin;
    [by apply not_elem_of_nil in Hin|].
  csimpl. rewrite filter_cons. simpl.
  destruct (decide (l = L)) as [->|Hne].
  - f_equal. apply length_zero_iff_nil. rewrite length_filter_fmap.
    apply length_filter_none. by intros x Hx; simpl; intros ->.
  - apply IH. by apply elem_of_cons in Hin as [->|?].
Qed.

Lemma real_labels_in_labels (ys : y_lists) L :
  L ∈ real_labels ys → L ∈ labels ys.
Proof. intros ?. unfold labels. apply elem_of_app. by left. Qed.

End report_facts.

(** ** Counting outcomes per triple *)

Section outcome_facts.
Context {Off : Type} `{Countable Off}.
Implicit Types (gold pred : list (span Off)) (t p g : span Off).

Lemma status_lines gold pred :
  zip (pred_status gold pred) pred
  = (λ p, (status_of (gold_set gold) p, p)) <$> pred.
Proof. by rewrite pred_status_eq, zip_with_fmap_l, zip_with_diag. Qed.

Lemma tagged_count_TP t gold pred :
  tagged_count TP t gold pred
  = if decide (t ∈ gold) then occurrences t pred else 0%nat.
Proof.
  unfold tagged_count. rewrite status_lines, length_filter_fmap.
  unfold status_of, gold_set, occurrences.
  destruct (decide (t ∈ gold)) as [Ht|Ht].
  - apply length_filter_ext. intros p _. split.
    + by intros [= _ ->].
    + intros ->. by rewrite decide_True by (by apply elem_of_list_to_set).
  - apply length_filter_none. intros p _.
    case_decide as Hp; [|by intros [= ]].
    intros [= ->]. by apply elem_of_list_to_set in Hp.
Qed.

Lemma tagged_count_FP t gold pred :
  tagged_count FP t gold pred
  = if decide (t ∈ gold) then 0%nat else occurrences t pred.
Proof.
  unfold tagged_count. rewrite status_lines, length_filter_fmap.
  unfold status_of, gold_set, occurrences.
  destruct (decide (t ∈ gold)) as [Ht|Ht].
  - apply length_filter_none. intros p _.
    case_decide as Hp; [by intros [= ]|].
    intros [= ->]. by apply Hp, elem_of_list_to_set.
  - apply length_filter_ext. intros p _. split.
    + by intros [= _ ->].
    + intros ->.
      by rewrite decide_False by (by rewrite elem_of_list_to_set).
Qed.

Lemma missed_count_eq t gold pred :
  missed_count t gold pred
  = if decide (t ∈ pred) then 0%nat else occurrences t gold.
Proof.
  unfold missed_count, occurrences.
  destruct (decide (t ∈ pred)) as [Ht|Ht].
  - apply length_filter_none. intros g Hg [-> Hnf].
    by apply Hnf, gold_found_iff.
  - apply length_filter_ext. intros g Hg. split; [by intros [? _]|].
    intros ->. split; [done|]. by rewrite gold_found_iff.
Qed.

(** Lines 73-78: the first test of the comprehension fails for every gold
    span, so the list is empty. *)
Lemma fn_entities_nil gold pred : fn_entities gold pred = [].
Proof.
  unfold fn_entities, gold_set.
  apply length_zero_iff_nil, length_filter_none.
  intros x Hx [Hn _]. apply Hn.
  by rewrite elem_of_intersection, !elem_of_list_to_set.
Qed.

Lemma label_in_y gold pred sp :
  sp ∈ gold ++ pred →
  span_label sp ∈ (build_y gold pred).1 ++ (build_y gold pred).2.
Proof.
  rewrite build_y_eq; simpl. rewrite !elem_of_app.
  intros [Hg|Hp].
  - left. left. by apply list_elem_of_fmap_2.
  - destruct (decide (sp ∈ gold_set gold)) as [Hin|Hin].
    + left. left. apply list_elem_of_fmap_2.
      by apply elem_of_list_to_set in Hin.
    + right. right. apply list_elem_of_fmap_2.
      unfold false_positives. by apply list_elem_of_filter.
Qed.

End outcome_facts.

(** ** Reordering the predictions *)

Section permutation_facts.
Context {Off : Type} `{Countable Off}.
Implicit Types (gold pred : list (span Off)).

Lemma pred_set_perm pred pred' :
  pred ≡ₚ pred' →
  (list_to_set pred : gset (span Off)) = list_to_set pred'.
Proof. intros Hp. by apply list_to_set_perm_L. Qed.

Lemma gold_pair_perm gold pred pred' g :
  pred ≡ₚ pred' → gold_pair gold pred g = gold_pair gold pred' g.
Proof.
  intros Hp. unfold gold_pair.
  assert (gold_found (gold_set gold) pred g
          ↔ gold_found (gold_set gold) pred' g) as Hiff.
  { unfold gold_found. by rewrite (pred_set_perm pred pred' Hp). }
  repeat case_decide; tauto || done.
Qed.

Lemma emitted_pairs_perm gold pred pred' :
  pred ≡ₚ pred' → emitted_pairs gold pred ≡ₚ emitted_pairs gold pred'.
Proof.
  intros Hp. unfold emitted_pairs, false_positives.
  rewrite (list_fmap_ext (gold_pair gold pred) (gold_pair gold pred') gold)
    by (intros; by apply gold_pair_perm).
  by rewrite Hp.
Qed.

Lemma build_y_perm gold pred pred' :
  pred ≡ₚ pred' →
  (build_y gold pred).1 ≡ₚ (build_y gold pred').1
  ∧ (build_y gold pred).2 ≡ₚ (build_y gold pred').2.
Proof.
  intros Hp. rewrite !build_y_eq; simpl. unfold false_positives. split.
  - by rewrite Hp.
  - f_equiv; [|by rewrite Hp].
    erewrite list_fmap_ext; [reflexivity|].
    intros _ g _.
    exact (f_equal snd (gold_pair_perm gold pred pred' g Hp)).
Qed.

Lemma count_pair_perm gold pred pred' a b :
  pred ≡ₚ pred' →
  sklearn.count_pair (build_y gold pred).1 (build_y gold pred).2 a b
  = sklearn.count_pair (build_y gold pred').1 (build_y gold pred').2 a b.
Proof.
  intros Hp. unfold sklearn.count_pair. rewrite !build_y_zip.
  by rewrite (emitted_pairs_perm gold pred pred' Hp).
Qed.

Lemma count_label_perm (y y' : list string) a :
  y ≡ₚ y' → sklearn.count_label y a = sklearn.count_label y' a.
Proof. intros Hy. unfold sklearn.count_label. by rewrite Hy. Qed.

Lemma labels_perm gold pred pred' :
  pred ≡ₚ pred' →
  real_labels (build_y gold pred) = real_labels (build_y gold pred')
  ∧ labels (build_y gold pred) = labels (build_y gold pred')
  ∧ sklearn.unique_labels (build_y gold pred).1 (build_y gold pred).2
    = sklearn.unique_labels (build_y gold pred').1 (build_y gold pred').2.
Proof.
  intros Hp. destruct (build_y_perm gold pred pred' Hp) as [H1 H2].
  assert (real_labels (build_y gold pred) = real_labels (build_y gold pred'))
    as Hreal.
  { unfold real_labels. f_equal. apply list_to_set_perm_L.
    by rewrite H1, H2. }
  split; [done|]. split.
  - unfold labels. by rewrite Hreal.
  - unfold sklearn.unique_labels. f_equal. apply list_to_set_perm_L.
    by rewrite H1, H2.
Qed.

End permutation_facts.

(** ** Unpacking and hashing the gold records *)





Lemma hash_record_raises (r : JSON.record) (e : exn) :
  hash_record r = Raise e → e = ValueError ∨ e = TypeError.
Proof.
  destruct r as [|s [|e' [|l [|? ?]]]];
    try (intros [= <-]; by left).
  unfold hash_record. simpl.
  destruct s, e', l; simpl; repeat case_decide; simpl;
    intros [= <-]; by right.
Qed.

Lemma hash_record_keyed (r : JSON.record) (g : span JSON.key) :
  keyed r g → hash_record r = Ok (as_tuple g).
Proof.
  intros (s & e & -> & Hs & He). unfold hash_record. simpl.
  by rewrite Hs, He.
Qed.

Lemma hash_records_keyed (recs : list JSON.record)
    (gold : list (span JSON.key)) :
  Forall2 keyed recs gold →
  res_mapM hash_record recs = Ok (as_tuple <$> gold).
Proof.
  induction 1 as [|r g recs gold Hk _ IH]; [done|]. csimpl.
  by rewrite (hash_record_keyed r g Hk), IH.
Qed.

Lemma str_label_tuples (gold : list (span JSON.key)) :
  mapM str_label (as_tuple <$> gold) = Some gold.
Proof.
  apply mapM_Some.
  induction gold as [|[[s e] l] gold IH]; csimpl; by constructor.
Qed.

Lemma hash_records_raise (recs : list JSON.record) (e : exn) :
  res_mapM hash_record recs = Raise e → e = ValueError ∨ e = TypeError.
Proof.
  induction recs as [|r recs IH]; [done|]. simpl.
  destruct (hash_record r) as [t|e1] eqn:Hr; simpl.
  - destruct (res_mapM hash_record recs) as [ts|e2]; simpl; [done|].
    intros [= <-]. by apply IH.
  - intros [= <-]. by apply (hash_record_raises r).
Qed.




(** * The claims *)

Section claims.
Context {Off : Type} `{Countable Off}.
Implicit Types (gold pred : list (span Off)) (t : span Off).

(** The report of a run, named once for the proofs below. *)
Lemma evaluate_spans_report gold pred :
  gold ++ pred ≠ [] →
  ∃ rep, evaluate_spans gold pred = Ok rep
    ∧ rep_outcomes rep = outcome_lines gold pred
    ∧ rep_labels rep = labels (build_y gold pred)
    ∧ rep_cm rep
      = matrix_of (sklearn.count_pair (build_y gold pred).1
                                      (build_y gold pred).2)
                  (rep_labels rep)
    ∧ rep_summary rep
      = summary_of (sklearn.count_pair (build_y gold pred).1
                                       (build_y gold pred).2)
                   (rep_labels rep)
        <$> real_labels (build_y gold pred)
    ∧ rep_classification rep
      = (λ l, (l, sklearn.class_row (build_y gold pred).1
                                    (build_y gold pred).2 l))
        <$> sklearn.unique_labels (build_y gold pred).1
                                  (build_y gold pred).2.
Proof.
  intros Hne. rewrite evaluate_spans_eq by done.
  eexists. split; [done|]. by simpl.
Qed.

(** C4.  In every run that builds a table, that is with a gold span or a
    prediction, the rows of the TP/FP/FN table are read off the confusion
    table: there is one row for each label of the table other than the
    sentinel, in the order of the table, and the row of label [L] holds the
    diagonal cell [confusion[L][L]] as TP, the sum of column [L] minus that
    cell as FP, and the sum of row [L] minus that cell as FN. *)
Theorem summary_from_confusion gold pred :
  gold ++ pred ≠ [] →
  ∃ rep, evaluate_spans gold pred = Ok rep
    ∧ rep_summary rep
      = (λ L, mk_row L (confusion rep L L)
                       (col_sum rep L - confusion rep L L)
                       (row_sum rep L - confusion rep L L))
        <$> filter (λ L, L ≠ O_label) (rep_labels rep).
Proof.
  intros Hne.
  destruct (evaluate_spans_report gold pred Hne)
    as (rep & Hrep & _ & Hls & Hcm & Hsm & _).
  exists rep. split; [done|].
  rewrite Hsm. rewrite Hls at 2. rewrite labels_filter.
  apply list_fmap_ext. intros i L Hi.
  assert (L ∈ rep_labels rep) as HL.
  { rewrite Hls. eapply real_labels_in_labels, list_elem_of_lookup_2, Hi. }
  unfold summary_of.
  by rewrite (confusion_of_matrix rep _ L L Hcm),
    (col_sum_of_matrix rep _ L Hcm), (row_sum_of_matrix rep _ L Hcm).
Qed.

(** C9.  In the confusion matrix of any run, the cell whose row is a real
    label [L1] and whose column is a different real label [L2] is zero: a
    gold label is only ever paired with itself or with the sentinel. *)
Theorem no_cross_label_confusion gold pred rep (i j : nat) (L1 L2 : string) :
  evaluate_spans gold pred = Ok rep →
  rep_labels rep !! i = Some L1 →
  rep_labels rep !! j = Some L2 →
  L1 ≠ L2 → L1 ≠ O_label → L2 ≠ O_label →
  cm_at (rep_cm rep) i j = Ok 0.
Proof.
  intros Hev Hi Hj Hne H1 H2.
  destruct (evaluate_spans_report gold pred
              (evaluate_spans_Ok gold pred rep Hev))
    as (rep' & Hrep & _ & Hls & Hcm & _).
  assert (rep' = rep) as -> by congruence.
  rewrite Hcm, (cm_at_matrix _ _ i j L1 L2) by done.
  by rewrite cell_off.
Qed.

(** C10.  The label ["O"] never counts as an entity class: in any run with a
    gold span or a prediction the label list is the sorted real labels
    followed by one ["O"], no real label is ["O"], and the TP/FP/FN table has
    no row for ["O"], whatever the labels of the gold and predicted spans are.
    *)
Theorem sentinel_label_excluded gold pred :
  gold ++ pred ≠ [] →
  ∃ rep, evaluate_spans gold pred = Ok rep
    ∧ rep_labels rep = real_labels (build_y gold pred) ++ [O_label]
    ∧ (O_label ∉ real_labels (build_y gold pred))
    ∧ Forall (λ row, row_label row ≠ O_label) (rep_summary rep).
Proof.
  intros Hne.
  destruct (evaluate_spans_report gold pred Hne)
    as (rep & Hrep & _ & Hls & _ & Hsm & _).
  exists rep. split; [done|]. split; [done|]. split.
  - by intros [? _]%real_labels_elem.
  - rewrite Hsm. apply Forall_fmap, Forall_forall.
    by intros L [? _]%real_labels_elem.
Qed.

(** Matching is by set membership: the multiplicities only matter through
    being zero or not. *)
Lemma multiplicity_counts gold pred t :
  let N := occurrences t gold in
  let M := occurrences t pred in
  tagged_count TP t gold pred = (if decide (0 < N)%nat then M else 0%nat)
  ∧ tagged_count FP t gold pred = (if decide (0 < N)%nat then 0%nat else M)
  ∧ missed_count t gold pred = (if decide (0 < M)%nat then 0%nat else N).
Proof.
  intros N M.
  rewrite tagged_count_TP, tagged_count_FP, missed_count_eq.
  unfold N, M. repeat split;
    repeat case_decide; rewrite ?occurrences_pos in *; tauto || done.
Qed.

(** C3 (as the code has it).  For a real label [L] carried by some gold or
    predicted span, the TP/FP/FN table has exactly one row; its TP + FN is
    the number of gold spans of label [L]; its TP + FP is the number of
    predicted spans of label [L] provided every triple of label [L] that
    occurs on both sides occurs equally often on both. *)
Theorem conservation_per_label gold pred (L : string) :
  L ≠ O_label →
  (∃ sp, sp ∈ gold ++ pred ∧ span_label sp = L) →
  ∃ rep row, evaluate_spans gold pred = Ok rep
    ∧ filter (λ r, row_label r = L) (rep_summary rep) = [row]
    ∧ row_TP row + row_FN row = label_count L gold
    ∧ (multiplicities_agree L gold pred →
       row_TP row + row_FP row = label_count L pred).
Proof.
  intros HL (sp & Hsp & Hlbl).
  assert (gold ++ pred ≠ []) as Hne.
  { intros Hnil. rewrite Hnil in Hsp. by apply not_elem_of_nil in Hsp. }
  destruct (evaluate_spans_report gold pred Hne)
    as (rep & Hrep & _ & Hls & _ & Hsm & _).
  set (ys := build_y gold pred) in *.
  set (f := sklearn.count_pair ys.1 ys.2) in *.
  exists rep, (summary_of f (rep_labels rep) L).
  split; [done|]. split; [|split].
  - rewrite Hsm.
    assert (L ∈ real_labels ys) as Hin.
    { apply real_labels_elem. split; [done|]. subst L. by apply label_in_y. }
    apply summary_row_unique; [|done]. apply sorted_NoDup.
  - simpl. rewrite Hls.
    pose proof (row_total gold pred L HL) as Hrow. simpl in Hrow.
    fold ys f in Hrow. lia.
  - intros Hagree. simpl. rewrite Hls.
    pose proof (col_total gold pred L HL) as Hcol. simpl in Hcol.
    fold ys f in Hcol.
    rewrite (label_count_pred gold pred L).
    rewrite (found_count_agree gold pred L Hagree) in Hcol. lia.
Qed.

(** With no gold span every prediction is tagged FP, no row of the table
    has a true positive or a false negative, and the FP of a row is the
    number of predictions of its label. *)
Lemma empty_gold_all_FP pred :
  pred_status [] pred = replicate (length pred) FP
  ∧ (pred ≠ [] →
     ∃ rep, evaluate_spans [] pred = Ok rep
       ∧ Forall (λ row, row_TP row = 0 ∧ row_FN row = 0
                        ∧ row_FP row = label_count (row_label row) pred)
                (rep_summary rep)).
Proof.
  split.
  - rewrite pred_status_eq. induction pred as [|p pred IH]; [done|].
    csimpl. by rewrite IH.
  - intros Hne.
    destruct (evaluate_spans_report [] pred Hne)
      as (rep & Hrep & _ & Hls & _ & Hsm & _).
    exists rep. split; [done|]. rewrite Hsm.
    apply Forall_fmap, Forall_forall. intros L [HL _]%real_labels_elem.
    pose proof (row_total [] pred L HL) as Hrow.
    pose proof (col_total [] pred L HL) as Hcol.
    pose proof (cell_diag [] pred L HL) as Hdiag.
    pose proof (label_count_pred [] pred L) as Hpred.
    rewrite length_filter_none in Hpred
      by (intros p _ [_ Hp]; by apply not_elem_of_empty in Hp).
    simpl in *. rewrite Hls.
    unfold found_count in *. simpl in *.
    unfold label_count in Hrow at 1. simpl in Hrow. lia.
Qed.

(** C5.  In a run with a gold span or a prediction, reordering the predictions
    changes nothing but the order of the outcome lines: the TP/FP/FN table,
    the confusion matrix, the label list and the precision/recall/F1 rows are
    the same, and the outcome lines are a permutation of one another. *)
Theorem metrics_order_independent gold pred pred' :
  gold ++ pred ≠ [] →
  pred ≡ₚ pred' →
  ∃ rep rep', evaluate_spans gold pred = Ok rep
    ∧ evaluate_spans gold pred' = Ok rep'
    ∧ rep_summary rep = rep_summary rep'
    ∧ rep_cm rep = rep_cm rep'
    ∧ rep_labels rep = rep_labels rep'
    ∧ rep_classification rep = rep_classification rep'
    ∧ rep_outcomes rep ≡ₚ rep_outcomes rep'.
Proof.
  intros Hne Hp.
  assert (gold ++ pred' ≠ []) as Hne'.
  { intros Hnil. apply app_eq_nil in Hnil as [-> ->].
    by apply Permutation_nil_r in Hp as ->. }
  destruct (evaluate_spans_report gold pred Hne)
    as (rep & Hrep & Hout & Hls & Hcm & Hsm & Hcr).
  destruct (evaluate_spans_report gold pred' Hne')
    as (rep' & Hrep' & Hout' & Hls' & Hcm' & Hsm' & Hcr').
  destruct (labels_perm gold pred pred' Hp) as (Hreal & Hlabels & Huniq).
  destruct (build_y_perm gold pred pred' Hp) as [H1 H2].
  assert (rep_labels rep = rep_labels rep') as Hlseq by congruence.
  exists rep, rep'. repeat split; try done.
  - rewrite Hsm, Hsm', <- Hreal, <- Hlseq. apply list_fmap_ext.
    intros _ L _. unfold summary_of.
    rewrite (count_pair_perm gold pred pred' L L Hp). f_equal.
    + f_equal. f_equal. apply list_fmap_ext. intros _ a _.
      by apply count_pair_perm.
    + f_equal. f_equal. apply list_fmap_ext. intros _ b _.
      by apply count_pair_perm.
  - rewrite Hcm, Hcm', <- Hlseq. unfold matrix_of.
    apply list_fmap_ext. intros _ a _. apply list_fmap_ext. intros _ b _.
    by apply count_pair_perm.
  - rewrite Hcr, Hcr', <- Huniq. apply list_fmap_ext. intros _ L _.
    unfold sklearn.class_row.
    by rewrite (count_pair_perm gold pred pred' L L Hp),
      (count_label_perm _ _ L H1), (count_label_perm _ _ L H2).
  - rewrite Hout, Hout'. unfold outcome_lines.
    rewrite !fn_entities_nil, !status_lines. by rewrite Hp.
Qed.

End claims.

(** ** Runs on integer spans and on the annotation file *)

(** C1 (as the code has it).  Matching is by set membership.  Of the [M]
    predictions equal to a triple that occurs [N] times in gold, all are
    tagged TP when [N >= 1] and all are tagged FP when [N = 0]; of its [N]
    gold occurrences, all take the FN branch when [M = 0] and none does
    when [M >= 1].  For gold [[(0,5,"A"); (0,5,"A")]] and predictions
    [[(0,5,"A")]] the one prediction is tagged TP, no gold occurrence is
    missed, and the table reports TP = 2, FP = 0, FN = 0 for ["A"]. *)
Theorem multiplicity_by_membership :
  (∀ (Off : Type) `(Countable Off) (gold pred : list (span Off)) t,
     let N := occurrences t gold in
     let M := occurrences t pred in
     tagged_count TP t gold pred = (if decide (0 < N)%nat then M else 0%nat)
     ∧ tagged_count FP t gold pred
       = (if decide (0 < N)%nat then 0%nat else M)
     ∧ missed_count t gold pred = (if decide (0 < M)%nat then 0%nat else N))
  ∧ tagged_count TP span_A [span_A; span_A] [span_A] = 1%nat
  ∧ missed_count span_A [span_A; span_A] [span_A] = 0%nat
  ∧ ∃ rep, evaluate_spans [span_A; span_A] [span_A] = Ok rep
      ∧ rep_outcomes rep = [(TP, span_A)]
      ∧ rep_summary rep = [mk_row "A" 2 0 0].
Proof.
  split; [intros; by apply multiplicity_counts|].
  split; [by vm_compute|]. split; [by vm_compute|].
  eexists. split; [by vm_compute|]. by split.
Qed.

(** Bag accounting fails on the multiplicity sample: with two gold
    occurrences and one prediction no gold occurrence is missed. *)
Lemma multiplicity_counterexample :
  occurrences span_A [span_A; span_A] = 2%nat
  ∧ occurrences span_A [span_A] = 1%nat
  ∧ ¬ bag_accounting [span_A; span_A] [span_A] span_A.
Proof.
  split; [by vm_compute|]. split; [by vm_compute|].
  intros (_ & _ & Hmissed). vm_compute in Hmissed. discriminate.
Qed.

(** C2.  The list of missed entities is empty on every input, so no FN line
    is ever printed: for gold [[(0,5,"A")]] and no prediction the gold span
    takes the FN branch of line 97 and the table counts FN = 1 for ["A"],
    while the outcome lines are empty. *)
Theorem missed_list_always_empty :
  (∀ (Off : Type) `(Countable Off) (gold pred : list (span Off)),
     fn_entities gold pred = [])
  ∧ fn_entities [span_A] [] = []
  ∧ missed_count span_A [span_A] [] = 1%nat
  ∧ ∃ rep, evaluate_spans [span_A] [] = Ok rep
      ∧ rep_outcomes rep = []
      ∧ rep_summary rep = [mk_row "A" 0 0 1].
Proof.
  split; [intros; by apply fn_entities_nil|].
  split; [by vm_compute|]. split; [by vm_compute|].
  eexists. split; [by vm_compute|]. by split.
Qed.

(** On the same sample the row of ["A"] has TP + FP = 2 for a single
    prediction of label ["A"]. *)
Lemma conservation_counterexample :
  ∃ rep row, evaluate_spans [span_A; span_A] [span_A] = Ok rep
    ∧ rep_summary rep = [row]
    ∧ row_label row = "A"
    ∧ row_TP row + row_FP row = 2
    ∧ label_count "A" [span_A] = 1
    ∧ row_TP row + row_FP row ≠ label_count "A" [span_A].
Proof.
  eexists _, _. split; [by vm_compute|]. split; [done|]. by vm_compute.
Qed.

(** C6.  With an empty gold sequence every prediction is tagged FP and,
    when there is a prediction, no row of the table has a true positive
    or a false negative.  For gold
    [[]] and predictions [[(0,3,"X")]]: the prediction is FP, the table
    row of ["X"] is TP = 0, FP = 1, FN = 0, and the report row of ["X"]
    has precision 0 and recall 0. *)
Theorem empty_gold_symmetry :
  (∀ (Off : Type) `(Countable Off) (pred : list (span Off)),
     pred_status [] pred = replicate (length pred) FP
     ∧ (pred ≠ [] →
        ∃ rep, evaluate_spans [] pred = Ok rep
          ∧ Forall (λ row, row_TP row = 0 ∧ row_FN row = 0
                           ∧ row_FP row = label_count (row_label row) pred)
                   (rep_summary rep)))
  ∧ ∃ rep prf, evaluate_spans [] [span_X] = Ok rep
      ∧ rep_outcomes rep = [(FP, span_X)]
      ∧ rep_summary rep = [mk_row "X" 0 1 0]
      ∧ report_row rep "X" = Some prf
      ∧ sklearn.precision prf = 0%Q
      ∧ sklearn.recall prf = 0%Q.
Proof.
  split; [intros; by apply empty_gold_all_FP|].
  eexists _, _. split; [by vm_compute|]. split; [done|]. split; [done|].
  split; [by vm_compute|]. by split.
Qed.

(** C8.  When the pipeline finds no entity and there is no gold span,
    [evaluate] does not complete: [classification_report] of line 107 is
    called on two empty lists and raises [ValueError].  The lines after it
    would have worked on the empty run: the label list is [["O"]], the
    confusion matrix is the single cell 0 and the TP/FP/FN table is
    empty. *)
Theorem empty_evaluation_raises {Off : Type} `{Countable Off}
    (of_int : Z → Off) (nlp : string → list (Z * Z * string))
    (text : string) :
  nlp text = [] →
  let ys := build_y [] (ents_to_pred of_int (nlp text)) in
  ys = ([], [])
  ∧ sklearn.classification_report ys.1 ys.2 = Raise ValueError
  ∧ evaluate of_int nlp text [] = Raise ValueError
  ∧ labels ys = ["O"]
  ∧ sklearn.confusion_matrix ys.1 ys.2 (labels ys) = Ok [[0]]
  ∧ summary_table (labels ys) [[0]] = Ok [].
Proof.
  intros Hnlp. unfold evaluate. rewrite Hnlp. by vm_compute.
Qed.

Lemma empty_evaluation_raises_witness :
  evaluate id no_entities "" ([] : list (span Z)) = Raise ValueError.
Proof.
  destruct (empty_evaluation_raises id no_entities "") as (_ & _ & Hev & _);
    [reflexivity|].
  exact Hev.
Defined.




(** ** The theorems with hypotheses, applied to sample runs *)

Lemma conservation_witness :
  ∃ rep row, evaluate_spans [span_A; span_B] [span_A] = Ok rep
    ∧ filter (λ r, row_label r = "A") (rep_summary rep) = [row]
    ∧ row_TP row + row_FN row = label_count "A" [span_A; span_B]
    ∧ row_TP row + row_FP row = label_count "A" [span_A].
Proof.
  destruct (conservation_per_label [span_A; span_B] [span_A] "A")
    as (rep & row & Hev & Hrow & Hfn & Hfp).
  - done.
  - exists span_A. split; [|reflexivity]. apply elem_of_app. left. by left.
  - exists rep, row. split; [done|]. split; [done|]. split; [done|].
    apply Hfp. intros t _ _ Hp.
    apply list_elem_of_singleton in Hp as ->. by vm_compute.
Defined.

Lemma no_cross_label_confusion_witness :
  ∃ rep, evaluate_spans [span_A; span_B] [span_A] = Ok rep
    ∧ rep_labels rep = ["A"; "B"; "O"]
    ∧ cm_at (rep_cm rep) 0 1 = Ok 0.
Proof.
  eexists. split; [by vm_compute|]. split; [done|].
  apply (no_cross_label_confusion [span_A; span_B] [span_A] _ 0 1 "A" "B");
    by vm_compute.
Defined.

Lemma metrics_order_independent_witness :
  ∃ rep rep', evaluate_spans [span_A] [span_A; span_B] = Ok rep
    ∧ evaluate_spans [span_A] [span_B; span_A] = Ok rep'
    ∧ rep_summary rep = rep_summary rep'
    ∧ rep_cm rep = rep_cm rep'
    ∧ rep_labels rep = rep_labels rep'
    ∧ rep_classification rep = rep_classification rep'
    ∧ rep_outcomes rep ≡ₚ rep_outcomes rep'.
Proof.
  apply (metrics_order_independent [span_A] [span_A; span_B]
           [span_B; span_A]); [done|].
  apply perm_swap.
Defined.

Lemma summary_from_confusion_witness :
  ∃ rep, evaluate_spans [span_A; span_B] [span_A] = Ok rep
    ∧ rep_summary rep
      = (λ L, mk_row L (confusion rep L L)
                       (col_sum rep L - confusion rep L L)
                       (row_sum rep L - confusion rep L L))
        <$> filter (λ L, L ≠ O_label) (rep_labels rep).
Proof. apply (summary_from_confusion [span_A; span_B] [span_A]). done. Defined.

Lemma sentinel_label_excluded_witness :
  ∃ rep, evaluate_spans [span_O] [span_A] = Ok rep
    ∧ rep_labels rep = real_labels (build_y [span_O] [span_A]) ++ [O_label]
    ∧ (O_label ∉ real_labels (build_y [span_O] [span_A]))
    ∧ Forall (λ row, row_label row ≠ O_label) (rep_summary rep).
Proof. apply (sentinel_label_excluded [span_O] [span_A]). done. Defined.

(** * Further properties of the script *)

(** ** The matcher *)

Section matcher_properties.
Context {Off : Type} `{Countable Off}.
Implicit Types (gold pred : list (span Off)) (p t : span Off).

Lemma pred_status_length gold pred :
  length (pred_status gold pred) = length pred.
Proof. by rewrite pred_status_eq, length_fmap. Qed.

Lemma build_y_total gold pred :
  length (build_y gold pred).1
  = (length gold
     + length (filter (λ o, o = FP) (pred_status gold pred)))%nat.
Proof.
  rewrite build_y_eq, pred_status_eq. simpl.
  rewrite length_app, !length_fmap, length_filter_fmap. f_equal.
  unfold false_positives. apply length_filter_ext. intros p _.
  unfold status_of. case_decide; split; done.
Qed.

(** The status list is aligned with the predictions, and the entry of a
    prediction is TP exactly when its triple is one of the gold triples,
    FP otherwise. *)
Theorem pred_status_exact gold pred :
  length (pred_status gold pred) = length pred
  ∧ ∀ i p, pred !! i = Some p →
      pred_status gold pred !! i
      = Some (if decide (p ∈ gold) then TP else FP).
Proof.
  split; [apply pred_status_length|]. rewrite pred_status_eq.
  intros i p Hi. rewrite list_lookup_fmap, Hi. simpl. f_equal.
  unfold status_of, gold_set.
  repeat case_decide; rewrite ?elem_of_list_to_set in *; tauto || done.
Qed.

(** The set [matched_preds] holds exactly the positions tagged TP, all of
    them positions of the prediction list. *)
Theorem matched_preds_are_TP gold pred (i : nat) :
  (i ∈ matched_preds gold pred ↔ pred_status gold pred !! i = Some TP)
  ∧ (i ∈ matched_preds gold pred → (i < length pred)%nat).
Proof.
  rewrite matched_preds_spec, pred_status_eq, list_lookup_fmap. split.
  - split.
    + intros (p & -> & Hp). simpl. unfold status_of. by rewrite decide_True.
    + destruct (pred !! i) as [p|] eqn:Hi; simpl; [|done].
      unfold status_of. case_decide; [|done]. intros _. by exists p.
  - intros (p & Hi & _). by apply lookup_lt_Some in Hi.
Qed.

(** The two lists handed to scikit-learn have the same length: one entry
    per gold span followed by one entry per prediction tagged FP. *)
Theorem y_lists_length gold pred :
  length (build_y gold pred).1 = length (build_y gold pred).2
  ∧ length (build_y gold pred).1
    = (length gold
       + length (filter (λ o, o = FP) (pred_status gold pred)))%nat.
Proof. split; [apply build_y_length | apply build_y_total]. Qed.

End matcher_properties.

(** ** What [evaluate] prints *)

Section report_properties.
Context {Off : Type} `{Countable Off}.
Implicit Types (gold pred : list (span Off)) (p t : span Off).

Lemma y_label_origin gold pred (L : string) :
  L ≠ O_label →
  L ∈ (build_y gold pred).1 ++ (build_y gold pred).2 →
  ∃ sp, sp ∈ gold ++ pred ∧ span_label sp = L.
Proof.
  intros HL. rewrite build_y_eq; simpl. rewrite !elem_of_app.
  intros [[HinL|HinL]|[HinL|HinL]];
    apply list_elem_of_fmap in HinL as (sp & Hsp & Hin).
  - exists sp. split; [|done]. apply elem_of_app. by left.
  - done.
  - exists sp. split; [apply elem_of_app; by left|].
    unfold gold_pair in Hsp; simpl in Hsp. by case_decide.
  - exists sp. split; [|done]. apply elem_of_app. right.
    unfold false_positives in Hin. by apply list_elem_of_filter in Hin as [_ ?].
Qed.

Lemma sum_count_key {B} (key : B → string) (ps : list B)
    (ls : list string) :
  NoDup ls → (∀ q, q ∈ ps → key q ∈ ls) →
  Py.sum ((λ a, Z.of_nat (length (filter (λ q, key q = a) ps))) <$> ls)
  = Z.of_nat (length ps).
Proof.
  intros Hnd. induction ps as [|q ps IH]; intros Hin.
  - by apply sum_fmap_zero.
  - rewrite (sum_fmap_ext _ (λ a,
      (if decide (key q = a) then 1 else 0)
      + Z.of_nat (length (filter (λ q', key q' = a) ps)))).
    2:{ intros a _. simpl. rewrite filter_cons. case_decide; simpl; lia. }
    rewrite sum_fmap_add, IH by (intros q' Hq'; apply Hin; by right).
    rewrite sum_indicator, decide_True by (done || apply Hin; by left).
    simpl. lia.
Qed.

(** [evaluate] raises in one case only: when there is no gold span and
    the pipeline finds no entity, [classification_report] raises
    [ValueError].  On every other input it returns normally: none of the
    exceptions of the matrix construction or of the indexing of the table
    can occur, and it prints one outcome line per entity of the document,
    in reading order, each with the tag computed by the matcher. *)
Theorem evaluate_raises_only_on_empty_run (of_int : Z → Off)
    (nlp : string → list (Z * Z * string)) (text : string) gold :
  (evaluate of_int nlp text gold = Raise ValueError
   ↔ gold = [] ∧ nlp text = [])
  ∧ (∀ e, evaluate of_int nlp text gold = Raise e → e = ValueError)
  ∧ (gold ≠ [] ∨ nlp text ≠ [] →
     ∃ rep, evaluate of_int nlp text gold = Ok rep
       ∧ (rep_outcomes rep).*2 = ents_to_pred of_int (nlp text)
       ∧ (rep_outcomes rep).*1
         = pred_status gold (ents_to_pred of_int (nlp text))
       ∧ length (rep_outcomes rep) = length (nlp text)).
Proof.
  unfold evaluate. set (pred := ents_to_pred of_int (nlp text)).
  assert (gold ++ pred = [] ↔ gold = [] ∧ nlp text = []) as Hnil.
  { unfold pred, ents_to_pred. split.
    - intros [-> Hp]%app_eq_nil. by apply fmap_nil_inv in Hp.
    - by intros [-> ->]. }
  split; [|split].
  - split.
    + intros [_ ?]%evaluate_spans_Raise. by apply Hnil.
    + intros [-> Hp]%Hnil%app_eq_nil. rewrite Hp.
      apply evaluate_spans_empty.
  - by intros e [-> _]%evaluate_spans_Raise.
  - intros Hne.
    destruct (evaluate_spans_report gold pred) as (rep & Hrep & Hout & _).
    { rewrite Hnil. tauto. }
    exists rep. split; [done|]. rewrite Hout. unfold outcome_lines.
    rewrite fn_entities_nil, app_nil_r.
    pose proof (pred_status_length gold pred) as Hlen.
    split; [apply snd_zip; lia|]. split; [apply fst_zip; lia|].
    rewrite length_zip_with, Hlen. unfold pred, ents_to_pred.
    rewrite length_fmap. lia.
Qed.

(** The label list of a run with a gold span or a prediction is the strictly
    sorted list of the real labels followed by the sentinel; it has no
    duplicate, and a real label is in it exactly when some gold or predicted
    span carries it. *)
Theorem labels_sorted_and_complete gold pred :
  gold ++ pred ≠ [] →
  ∃ rep real, evaluate_spans gold pred = Ok rep
    ∧ rep_labels rep = real ++ [O_label]
    ∧ Sorted String.le real
    ∧ NoDup (rep_labels rep)
    ∧ ∀ L, L ≠ O_label →
        (L ∈ rep_labels rep ↔ ∃ sp, sp ∈ gold ++ pred ∧ span_label sp = L).
Proof.
  intros Hne.
  destruct (evaluate_spans_report gold pred Hne)
    as (rep & Hrep & _ & Hls & _).
  exists rep, (real_labels (build_y gold pred)).
  split; [done|]. split; [done|]. split; [|split].
  - unfold real_labels, Py.sorted. apply Sorted_merge_sort. apply _.
  - rewrite Hls. apply labels_NoDup.
  - intros L HL. rewrite Hls, labels_elem. split.
    + intros [?|HinL]; [done|]. by apply y_label_origin.
    + intros (sp & Hsp & <-). right. by apply label_in_y.
Qed.

End report_properties.

(** ** The confusion matrix and the table *)

Section table_properties.
Context {Off : Type} `{Countable Off}.
Implicit Types (gold pred : list (span Off)) (p g t : span Off).

Lemma cm_total_matrix (y1 y2 : list string) (ls : list string) :
  NoDup ls →
  (∀ q, q ∈ zip y1 y2 → q.1 ∈ ls ∧ q.2 ∈ ls) →
  cm_total (matrix_of (sklearn.count_pair y1 y2) ls)
  = Z.of_nat (length (zip y1 y2)).
Proof.
  intros Hnd Hin. unfold cm_total, matrix_of.
  rewrite <- list_fmap_compose.
  rewrite (sum_fmap_ext _ (λ a,
    Z.of_nat (length (filter (λ q, q.1 = a) (zip y1 y2))))).
  - apply sum_count_key; [done|]. intros q Hq. by apply Hin.
  - intros a _. simpl. apply row_sum_count; [done|].
    intros q Hq _. by apply Hin.
Qed.

(** In a run with a gold span or a prediction, the confusion matrix is square,
    one row and one column per entry of the label list; no cell is negative;
    and the cells add up to the number of gold spans plus the number of
    predictions tagged FP. *)
Theorem confusion_matrix_shape gold pred :
  gold ++ pred ≠ [] →
  ∃ rep, evaluate_spans gold pred = Ok rep
    ∧ length (rep_cm rep) = length (rep_labels rep)
    ∧ Forall (λ r, length r = length (rep_labels rep)) (rep_cm rep)
    ∧ Forall (Forall (λ z, 0 ≤ z)) (rep_cm rep)
    ∧ cm_total (rep_cm rep)
      = Z.of_nat (length gold)
        + Z.of_nat (length (filter (λ o, o = FP) (pred_status gold pred))).
Proof.
  intros Hne.
  destruct (evaluate_spans_report gold pred Hne)
    as (rep & Hrep & _ & Hls & Hcm & _).
  exists rep. split; [done|]. rewrite Hcm. split; [|split; [|split]].
  - unfold matrix_of. by rewrite length_fmap.
  - unfold matrix_of. apply Forall_fmap, Forall_forall.
    intros a _. simpl. by rewrite length_fmap.
  - unfold matrix_of. apply Forall_fmap, Forall_forall.
    intros a _. simpl. apply Forall_fmap, Forall_forall.
    intros b _. simpl. unfold sklearn.count_pair. lia.
  - rewrite Hls, cm_total_matrix.
    + rewrite length_zip_with, <- build_y_length, Nat.min_id.
      rewrite build_y_total. lia.
    + apply labels_NoDup.
    + rewrite build_y_zip. apply emitted_pairs_labels.
Qed.

Lemma cell_sentinel_row gold pred (L : string) :
  L ≠ O_label →
  sklearn.count_pair (build_y gold pred).1 (build_y gold pred).2 O_label L
  = label_count L (filter (λ p, p ∉ gold) pred).
Proof.
  intros HL. unfold sklearn.count_pair, label_count.
  rewrite build_y_zip. unfold emitted_pairs, false_positives.
  rewrite filter_app, length_app, !length_filter_fmap.
  rewrite (length_filter_none (λ x, gold_pair gold pred x = (O_label, L))).
  2:{ intros g _. unfold gold_pair. case_decide; intros [= ]; congruence. }
  simpl. f_equal. rewrite !list_filter_filter.
  apply length_filter_ext. intros p _. unfold fp_pair, gold_set.
  rewrite elem_of_list_to_set. split.
  - intros [[= ] ?]. done.
  - intros [-> ?]. done.
Qed.

Lemma cell_sentinel_col gold pred (L : string) :
  L ≠ O_label →
  sklearn.count_pair (build_y gold pred).1 (build_y gold pred).2 L O_label
  = label_count L (filter (λ g, g ∉ pred) gold).
Proof.
  intros HL. unfold sklearn.count_pair, label_count.
  rewrite build_y_zip. unfold emitted_pairs.
  rewrite filter_app, length_app, !length_filter_fmap.
  rewrite (length_filter_none (λ x, fp_pair x = (L, O_label))).
  2:{ intros p _. unfold fp_pair. intros [= ]. congruence. }
  rewrite Nat.add_0_r. f_equal. rewrite list_filter_filter.
  apply length_filter_ext. intros g Hg. unfold gold_pair.
  pose proof (gold_found_iff gold pred g Hg) as Hfound.
  case_decide; split.
  - intros [= ]. congruence.
  - intros [_ Hn]. tauto.
  - intros [= ]. tauto.
  - intros [-> _]. done.
Qed.

Lemma false_positives_list gold pred :
  false_positives gold pred = filter (λ p, p ∉ gold) pred.
Proof.
  unfold false_positives, gold_set. apply list_filter_iff.
  intros p. by rewrite elem_of_list_to_set.
Qed.

Lemma label_count_gold_split gold pred (L : string) :
  label_count L gold
  = found_count L gold pred + label_count L (filter (λ g, g ∉ pred) gold).
Proof.
  unfold label_count, found_count.
  rewrite (length_filter_split _ (λ g, gold_found (gold_set gold) pred g)).
  rewrite Nat2Z.inj_add. f_equal. f_equal. rewrite list_filter_filter.
  apply length_filter_ext. intros g Hg.
  pose proof (gold_found_iff gold pred g Hg). tauto.
Qed.

(** In the table of a run with a gold span or a prediction, the FP of a label
    is the cell of the sentinel row in the column of the label, and counts the
    predictions of that label whose triple is not a gold triple; the FN of a
    label is the cell of the sentinel column in the row of the label, and
    counts the gold spans of that label whose triple is not predicted. *)
Theorem sentinel_cells_are_FP_FN gold pred :
  gold ++ pred ≠ [] →
  ∃ rep, evaluate_spans gold pred = Ok rep
    ∧ Forall (λ row,
        row_FP row = confusion rep O_label (row_label row)
        ∧ row_FN row = confusion rep (row_label row) O_label
        ∧ row_FP row
          = label_count (row_label row) (filter (λ p, p ∉ gold) pred)
        ∧ row_FN row
          = label_count (row_label row) (filter (λ g, g ∉ pred) gold))
      (rep_summary rep).
Proof.
  intros Hne.
  destruct (evaluate_spans_report gold pred Hne)
    as (rep & Hrep & _ & Hls & Hcm & Hsm & _).
  exists rep. split; [done|]. rewrite Hsm.
  apply Forall_fmap, Forall_forall. intros L HinL.
  pose proof HinL as [HL _]%real_labels_elem.
  assert (L ∈ rep_labels rep) as HLin.
  { rewrite Hls. by apply real_labels_in_labels. }
  assert (O_label ∈ rep_labels rep) as HOin.
  { rewrite Hls. apply labels_elem. by left. }
  simpl.
  rewrite (confusion_of_matrix rep _ O_label L Hcm HOin HLin),
    (confusion_of_matrix rep _ L O_label Hcm HLin HOin).
  rewrite cell_sentinel_row, cell_sentinel_col by done.
  pose proof (row_total gold pred L HL) as Hrow.
  pose proof (col_total gold pred L HL) as Hcol.
  pose proof (cell_diag gold pred L HL) as Hdiag.
  pose proof (label_count_gold_split gold pred L) as Hsplit.
  rewrite false_positives_list in Hcol.
  simpl in Hrow, Hcol. rewrite Hls. lia.
Qed.

(** In a run with a gold span or a prediction, the table agrees with the
    outcome lines: the FP of a label is the number of lines of that label
    tagged FP, and its TP is the number of lines of that label tagged TP
    provided every triple of that label present on both sides is repeated
    equally often on both. *)
Theorem table_matches_outcome_lines gold pred :
  gold ++ pred ≠ [] →
  ∃ rep, evaluate_spans gold pred = Ok rep
    ∧ Forall (λ row,
        row_FP row
        = tagged_label_count FP (row_label row) (rep_outcomes rep)
        ∧ (multiplicities_agree (row_label row) gold pred →
           row_TP row
           = tagged_label_count TP (row_label row) (rep_outcomes rep)))
      (rep_summary rep).
Proof.
  intros Hne.
  destruct (evaluate_spans_report gold pred Hne)
    as (rep & Hrep & Hout & Hls & Hcm & Hsm & _).
  exists rep. split; [done|]. rewrite Hsm, Hout.
  unfold outcome_lines. rewrite fn_entities_nil, app_nil_r, status_lines.
  apply Forall_fmap, Forall_forall. intros L HinL.
  pose proof HinL as [HL _]%real_labels_elem.
  pose proof (col_total gold pred L HL) as Hcol.
  pose proof (cell_diag gold pred L HL) as Hdiag.
  simpl in *. unfold tagged_label_count.
  rewrite !length_filter_fmap. simpl. split.
  - rewrite Hls. unfold label_count, false_positives in Hcol.
    rewrite list_filter_filter in Hcol.
    rewrite (length_filter_ext
      (λ x, status_of (gold_set gold) x = FP ∧ span_label x = L)
      (λ x, span_label x = L ∧ x ∉ gold_set gold)).
    + lia.
    + intros p _. unfold status_of. case_decide; split; intros [? ?]; done.
  - intros Hagree. rewrite Hdiag, (found_count_agree gold pred L Hagree).
    f_equal. apply length_filter_ext.
    intros p _. unfold status_of. case_decide; split; intros [? ?]; done.
Qed.

End table_properties.

(** ** The classification report *)

Section report_rows.
Context {Off : Type} `{Countable Off}.
Implicit Types (gold pred : list (span Off)) (p g t : span Off).

Lemma ratio_zero (d : Z) : sklearn.ratio 0 d = 0%Q.
Proof.
  unfold sklearn.ratio. case_decide; [done|].
  change 0%Q with (Qred 0). apply Qred_complete.
  unfold Qdiv. by rewrite Qmult_0_l.
Qed.

Lemma ratio_same (n : Z) : 0 < n → sklearn.ratio n n = 1%Q.
Proof.
  intros Hn. unfold sklearn.ratio. rewrite decide_False by lia.
  change 1%Q with (Qred 1). apply Qred_complete.
  apply Qmult_inv_r. unfold Qeq. simpl. lia.
Qed.

Lemma unique_labels_elem (y1 y2 : list string) (L : string) :
  L ∈ sklearn.unique_labels y1 y2 ↔ L ∈ y1 ++ y2.
Proof.
  unfold sklearn.unique_labels. by rewrite sorted_elem, elem_of_list_to_set.
Qed.

Lemma report_row_lookup (rep : report Off) (f : string → sklearn.prf)
    (uls : list string) (L : string) :
  rep_classification rep = (λ l, (l, f l)) <$> uls →
  L ∈ uls → report_row rep L = Some (f L).
Proof.
  intros Hcr HL. unfold report_row. rewrite Hcr, list_find_fmap.
  destruct (list_find _ uls) as [[i x]|] eqn:Hf.
  - apply list_find_Some in Hf as (_ & Hx & _). simpl in Hx. by subst.
  - apply list_find_None in Hf. rewrite Forall_forall in Hf.
    by destruct (Hf L HL).
Qed.

Lemma count_label_zip_l (y1 y2 : list string) (a : string) :
  length y1 = length y2 →
  sklearn.count_label y1 a
  = Z.of_nat (length (filter (λ q, q.1 = a) (zip y1 y2))).
Proof.
  intros Hlen. unfold sklearn.count_label.
  rewrite <- (fst_zip y1 y2) at 1 by lia. by rewrite length_filter_fmap.
Qed.

Lemma count_label_zip_r (y1 y2 : list string) (b : string) :
  length y1 = length y2 →
  sklearn.count_label y2 b
  = Z.of_nat (length (filter (λ q, q.2 = b) (zip y1 y2))).
Proof.
  intros Hlen. unfold sklearn.count_label.
  rewrite <- (snd_zip y1 y2) at 1 by lia. by rewrite length_filter_fmap.
Qed.

Lemma class_counts gold pred (L : string) :
  L ≠ O_label →
  let ys := build_y gold pred in
  sklearn.count_pair ys.1 ys.2 L L = found_count L gold pred
  ∧ sklearn.count_label ys.2 L
    = found_count L gold pred + label_count L (filter (λ p, p ∉ gold) pred)
  ∧ sklearn.count_label ys.1 L = label_count L gold.
Proof.
  intros HL ys. split; [by apply cell_diag|]. split.
  - unfold ys. rewrite (count_label_zip_r (build_y gold pred).1)
      by apply build_y_length.
    rewrite build_y_zip, col_pairs by done.
    by rewrite false_positives_list.
  - unfold ys. rewrite (count_label_zip_l _ (build_y gold pred).2)
      by apply build_y_length.
    rewrite build_y_zip. by apply row_pairs.
Qed.

Lemma table_row_counts gold pred (L : string) :
  L ≠ O_label →
  let ys := build_y gold pred in
  let row := summary_of (sklearn.count_pair ys.1 ys.2) (labels ys) L in
  row_TP row = found_count L gold pred
  ∧ row_FP row = label_count L (filter (λ p, p ∉ gold) pred)
  ∧ row_FN row = label_count L (filter (λ g, g ∉ pred) gold).
Proof.
  intros HL ys row.
  pose proof (row_total gold pred L HL) as Hrow.
  pose proof (col_total gold pred L HL) as Hcol.
  pose proof (cell_diag gold pred L HL) as Hdiag.
  pose proof (label_count_gold_split gold pred L) as Hsplit.
  rewrite false_positives_list in Hcol.
  unfold row, ys. simpl in *. lia.
Qed.

Lemma label_count_pos (L : string) (l : list (span Off)) sp :
  sp ∈ l → span_label sp = L → 0 < label_count L l.
Proof.
  intros Hsp HL. unfold label_count.
  destruct (filter (λ sp0, span_label sp0 = L) l) as [|x l'] eqn:Hf.
  - assert (sp ∈ filter (λ sp0, span_label sp0 = L) l) as Hin
      by (by apply list_elem_of_filter).
    rewrite Hf in Hin. by apply not_elem_of_nil in Hin.
  - simpl. lia.
Qed.

(** In a run with a gold span or a prediction, the classification report
    agrees with the TP/FP/FN table: for every row of the table the report has
    a row of the same label, whose precision is TP / (TP + FP), whose recall
    is TP / (TP + FN) (0 when the denominator is 0), and whose support is the
    number of gold spans of that label. *)
Theorem report_agrees_with_table gold pred :
  gold ++ pred ≠ [] →
  ∃ rep, evaluate_spans gold pred = Ok rep
    ∧ Forall (λ row, ∃ prf,
        report_row rep (row_label row) = Some prf
        ∧ sklearn.precision prf
          = sklearn.ratio (row_TP row) (row_TP row + row_FP row)
        ∧ sklearn.recall prf
          = sklearn.ratio (row_TP row) (row_TP row + row_FN row)
        ∧ sklearn.support prf = label_count (row_label row) gold)
      (rep_summary rep).
Proof.
  intros Hne.
  destruct (evaluate_spans_report gold pred Hne)
    as (rep & Hrep & _ & Hls & _ & Hsm & Hcr).
  exists rep. split; [done|]. rewrite Hsm, Hls.
  apply Forall_fmap, Forall_forall. intros L HinL.
  pose proof HinL as [HL HLy]%real_labels_elem.
  exists (sklearn.class_row (build_y gold pred).1 (build_y gold pred).2 L).
  split.
  { apply (report_row_lookup rep _ _ L Hcr). by apply unique_labels_elem. }
  destruct (class_counts gold pred L HL) as (Hdiag & Hcol & Hrow).
  destruct (table_row_counts gold pred L HL) as (HTP & HFP & HFN).
  pose proof (label_count_gold_split gold pred L) as Hsplit.
  unfold sklearn.class_row. simpl in *.
  rewrite HFP, HFN, HTP, Hcol, Hrow.
  split; [done|]. split; [|done]. f_equal. lia.
Qed.

(** When the pipeline finds no entity and there is a gold span, nothing is
    listed and every gold span is a false negative: each row of the table has
    TP = 0, FP = 0 and FN equal to the number of gold spans of its label, and
    the report row of that label has precision, recall and F1 equal to 0. *)
Theorem no_prediction_all_missed (of_int : Z → Off)
    (nlp : string → list (Z * Z * string)) (text : string) gold :
  nlp text = [] → gold ≠ [] →
  ∃ rep, evaluate of_int nlp text gold = Ok rep
    ∧ rep_outcomes rep = []
    ∧ Forall (λ row,
        row_TP row = 0 ∧ row_FP row = 0
        ∧ row_FN row = label_count (row_label row) gold
        ∧ ∃ prf, report_row rep (row_label row) = Some prf
            ∧ sklearn.precision prf = 0%Q
            ∧ sklearn.recall prf = 0%Q
            ∧ sklearn.f1_score prf = 0%Q)
      (rep_summary rep).
Proof.
  intros Hnlp Hgold. unfold evaluate. rewrite Hnlp. simpl.
  destruct (evaluate_spans_report gold [])
    as (rep & Hrep & Hout & Hls & _ & Hsm & Hcr).
  { by rewrite app_nil_r. }
  exists rep. split; [done|]. split.
  { rewrite Hout. unfold outcome_lines. by rewrite fn_entities_nil. }
  rewrite Hsm, Hls. apply Forall_fmap, Forall_forall. intros L HinL.
  pose proof HinL as [HL HLy]%real_labels_elem.
  destruct (class_counts gold [] L HL) as (Hdiag & _ & _).
  destruct (table_row_counts gold [] L HL) as (HTP & HFP & HFN).
  assert (found_count L gold [] = 0) as Hfound.
  { unfold found_count. rewrite length_filter_none; [done|].
    intros g _ [_ Hg]. unfold gold_found in Hg.
    apply elem_of_intersection in Hg as [_ Hg].
    by apply not_elem_of_empty in Hg. }
  simpl in *. rewrite HFP, HFN, HTP, Hfound.
  split; [done|]. split; [done|]. split.
  { rewrite (filter_all (λ g, g ∉ [])); [done|].
    apply Forall_forall. intros g _. apply not_elem_of_nil. }
  exists (sklearn.class_row (build_y gold []).1 (build_y gold []).2 L).
  split.
  { apply (report_row_lookup rep _ _ L Hcr). by apply unique_labels_elem. }
  unfold sklearn.class_row. simpl. rewrite HTP, Hfound, !ratio_zero.
  done.
Qed.

(** When gold and predictions hold the same triples, and there is one,
    every row of the table has FP = 0 and FN = 0, its TP is the number of
    gold spans of its label, and the report row of that label has
    precision, recall and F1 equal to 1. *)
Theorem same_triples_perfect_scores gold pred :
  gold ++ pred ≠ [] →
  (∀ t, t ∈ gold ↔ t ∈ pred) →
  ∃ rep, evaluate_spans gold pred = Ok rep
    ∧ Forall (λ row,
        row_TP row = label_count (row_label row) gold
        ∧ row_FP row = 0 ∧ row_FN row = 0
        ∧ ∃ prf, report_row rep (row_label row) = Some prf
            ∧ sklearn.precision prf = 1%Q
            ∧ sklearn.recall prf = 1%Q
            ∧ sklearn.f1_score prf = 1%Q)
      (rep_summary rep).
Proof.
  intros Hne Hsame.
  destruct (evaluate_spans_report gold pred Hne)
    as (rep & Hrep & _ & Hls & _ & Hsm & Hcr).
  exists rep. split; [done|]. rewrite Hsm, Hls.
  apply Forall_fmap, Forall_forall. intros L HinL.
  pose proof HinL as [HL HLy]%real_labels_elem.
  destruct (class_counts gold pred L HL) as (Hdiag & Hcol & Hrow).
  destruct (table_row_counts gold pred L HL) as (HTP & HFP & HFN).
  pose proof (label_count_gold_split gold pred L) as Hsplit.
  assert (label_count L (filter (λ p, p ∉ gold) pred) = 0) as Hfp.
  { unfold label_count. rewrite list_filter_filter, length_filter_none;
      [done|]. intros p Hp [_ Hn]. by apply Hn, Hsame. }
  assert (label_count L (filter (λ g, g ∉ pred) gold) = 0) as Hfn.
  { unfold label_count. rewrite list_filter_filter, length_filter_none;
      [done|]. intros g Hg [_ Hn]. by apply Hn, Hsame. }
  assert (0 < label_count L gold) as Hpos.
  { destruct (y_label_origin gold pred L HL HLy) as (sp & Hsp & Hlbl).
    apply (label_count_pos L gold sp); [|done].
    apply elem_of_app in Hsp as [?|?]; [done | by apply Hsame]. }
  simpl in *. rewrite HFP, HFN, HTP, Hfp, Hfn.
  split; [lia|]. split; [done|]. split; [done|].
  exists (sklearn.class_row (build_y gold pred).1 (build_y gold pred).2 L).
  split.
  { apply (report_row_lookup rep _ _ L Hcr). by apply unique_labels_elem. }
  unfold sklearn.class_row. simpl.
  rewrite HTP, Hcol, Hrow, Hfp.
  replace (found_count L gold pred) with (label_count L gold) by lia.
  rewrite Z.add_0_r, !ratio_same by done. done.
Qed.

End report_rows.

(** ** The text of the document *)

Section docx_properties.
Implicit Types (ps : list string) (p s t : string).

Lemma string_length_app s t :
  String.length (s +:+ t) = (String.length s + String.length t)%nat.
Proof. induction s as [|c s IH]; simpl; [done | by rewrite IH]. Qed.

Lemma substring_prefix s t :
  String.substring 0 (String.length s) (s +:+ t) = s.
Proof.
  induction s as [|c s IH]; simpl.
  - by destruct t.
  - by rewrite IH.
Qed.

Lemma substring_all s : String.substring 0 (String.length s) s = s.
Proof. induction s as [|c s IH]; simpl; [done | by rewrite IH]. Qed.

Lemma substring_skip s t (n m : nat) :
  String.substring (String.length s + n) m (s +:+ t)
  = String.substring n m t.
Proof. induction s as [|c s IH]; simpl; [done | by rewrite IH]. Qed.

Lemma text_from_docx_cons p ps :
  ps ≠ [] →
  text_from_docx (p :: ps) = p +:+ line_feed +:+ text_from_docx ps.
Proof. intros Hne. unfold text_from_docx. simpl. by destruct ps. Qed.

Lemma text_from_docx_length ps :
  String.length (text_from_docx ps)
  = (sum_list (String.length <$> ps) + (length ps - 1))%nat.
Proof.
  induction ps as [|p ps IH]; [done|].
  destruct ps as [|q ps].
  - unfold text_from_docx. simpl. lia.
  - rewrite text_from_docx_cons by done.
    rewrite !string_length_app, IH. simpl. lia.
Qed.

Lemma get_app_l s t (j : nat) :
  (j < String.length s)%nat → String.get j (s +:+ t) = String.get j s.
Proof. intros Hj. symmetry. by apply String.append_correct1. Qed.

Lemma get_app_r s t (j : nat) :
  String.get (String.length s + j) (s +:+ t) = String.get j t.
Proof. rewrite Nat.add_comm. symmetry. apply String.append_correct2. Qed.

Lemma paragraph_start_0 ps : paragraph_start ps 0 = 0%nat.
Proof. done. Qed.

Lemma paragraph_start_S p ps (i : nat) :
  paragraph_start (p :: ps) (S i)
  = (String.length p + S (paragraph_start ps i))%nat.
Proof. unfold paragraph_start. csimpl. lia. Qed.

Lemma text_from_docx_get ps (i : nat) p :
  ps !! i = Some p →
  (∀ j, (j < String.length p)%nat →
     String.get (paragraph_start ps i + j) (text_from_docx ps)
     = String.get j p)
  ∧ ((S i < length ps)%nat →
     String.get (paragraph_start ps i + String.length p) (text_from_docx ps)
     = Some (Ascii.ascii_of_nat 10)).
Proof.
  revert i. induction ps as [|q ps IH]; intros i Hi; [done|].
  destruct ps as [|q' ps].
  { destruct i as [|i]; [|done]. simpl in Hi. simplify_eq.
    split; [done|]. simpl. lia. }
  rewrite text_from_docx_cons by done.
  destruct i as [|i]; simpl in Hi.
  - simplify_eq. rewrite paragraph_start_0. simpl. split.
    + intros j Hj. by apply get_app_l.
    + intros _. rewrite <- (Nat.add_0_r (String.length p)).
      by rewrite get_app_r.
  - destruct (IH i Hi) as [Hchars Hfeed].
    rewrite paragraph_start_S. split.
    + intros j Hj. rewrite <- Nat.add_assoc, get_app_r. simpl.
      by apply Hchars.
    + intros Hlen. rewrite <- Nat.add_assoc, get_app_r. simpl.
      apply Hfeed. simpl in *. lia.
Qed.

Lemma text_from_docx_cover ps (k : nat) :
  (k < String.length (text_from_docx ps))%nat →
  ∃ i p, ps !! i = Some p
    ∧ (paragraph_start ps i ≤ k)%nat
    ∧ ((k < paragraph_start ps i + String.length p)%nat
       ∨ (k = paragraph_start ps i + String.length p)%nat
         ∧ (S i < length ps)%nat).
Proof.
  revert k. induction ps as [|q ps IH]; intros k Hk.
  { simpl in Hk. lia. }
  destruct ps as [|q' ps].
  { exists 0%nat, q. split; [done|]. rewrite paragraph_start_0.
    split; [lia|]. left. unfold text_from_docx in Hk. simpl in *. lia. }
  rewrite text_from_docx_cons in Hk by done.
  rewrite !string_length_app in Hk. simpl in Hk.
  destruct (decide (k ≤ String.length q)%nat) as [Hle|Hgt].
  - exists 0%nat, q. split; [done|]. rewrite paragraph_start_0.
    split; [lia|]. simpl. lia.
  - destruct (IH (k - String.length q - 1)%nat) as (i & p & Hi & Hlo & Hhi);
      [lia|].
    exists (S i), p. split; [done|]. rewrite paragraph_start_S.
    split; [lia|]. simpl in *. lia.
Qed.

(** The extracted text is the paragraphs in order with one line feed
    between two consecutive paragraphs: none before the first, none after
    the last, none for an empty document.  Character [j] of paragraph [i]
    stands at offset [paragraph_start ps i + j]; the character after a
    paragraph that is not the last is a line feed; every position of the
    text is one of these; and the text is as long as the paragraphs
    together plus one per paragraph after the first. *)
Theorem text_from_docx_layout ps :
  String.length (text_from_docx ps)
  = (sum_list (String.length <$> ps) + (length ps - 1))%nat
  ∧ (∀ i p j, ps !! i = Some p → (j < String.length p)%nat →
       String.get (paragraph_start ps i + j) (text_from_docx ps)
       = String.get j p)
  ∧ (∀ i p, ps !! i = Some p → (S i < length ps)%nat →
       String.get (paragraph_start ps i + String.length p)
                  (text_from_docx ps)
       = Some (Ascii.ascii_of_nat 10))
  ∧ (∀ k, (k < String.length (text_from_docx ps))%nat →
       ∃ i p, ps !! i = Some p
         ∧ (paragraph_start ps i ≤ k)%nat
         ∧ ((k < paragraph_start ps i + String.length p)%nat
            ∨ (k = paragraph_start ps i + String.length p)%nat
              ∧ (S i < length ps)%nat)).
Proof.
  split; [apply text_from_docx_length|]. split; [|split].
  - intros i p j Hi Hj. by apply (text_from_docx_get ps i p Hi).
  - intros i p Hi Hlen. by apply (text_from_docx_get ps i p Hi).
  - apply text_from_docx_cover.
Qed.

(** Offsets are stable: paragraph [i] of the document is the slice of the
    extracted text that starts at the sum of the lengths of the earlier
    paragraphs plus one per earlier paragraph, and the next paragraph
    starts one character after its end. *)
Theorem paragraph_slice ps (i : nat) p :
  ps !! i = Some p →
  py_slice (text_from_docx ps) (paragraph_start ps i)
           (paragraph_start ps i + String.length p) = p
  ∧ paragraph_start ps (S i)
    = (paragraph_start ps i + String.length p + 1)%nat.
Proof.
  unfold py_slice, paragraph_start. revert i.
  induction ps as [|q ps IH]; intros i Hi; [done|].
  destruct i as [|i]; simpl in Hi.
  - simplify_eq. simpl. split; [|lia].
    rewrite Nat.sub_0_r.
    destruct ps as [|q' ps].
    + unfold text_from_docx. simpl. apply substring_all.
    + rewrite text_from_docx_cons by done. apply substring_prefix.
  - assert (ps ≠ []) as Hne by (by destruct ps).
    destruct (IH i Hi) as [Hslice Hnext].
    rewrite text_from_docx_cons by done. split.
    + csimpl.
      replace (S (String.length q
                  + sum_list ((λ p0, S (String.length p0)) <$> take i ps)))
        with (String.length q
              + S (sum_list ((λ p0, S (String.length p0)) <$> take i ps)))%nat
        by lia.
      rewrite substring_skip. simpl.
      etrans; [|exact Hslice]. f_equal. lia.
    + csimpl. csimpl in Hnext. rewrite Hnext. lia.
Qed.

End docx_properties.

(** ** Failures of the script *)

Lemma evaluate_records_raises (nlp : string → list (Z * Z * string))
    (text : string) (recs : list JSON.record) (e : exn) :
  evaluate_records nlp text recs = Some (Raise e) →
  e = ValueError ∨ e = TypeError.
Proof.
  unfold evaluate_records.
  destruct (res_mapM hash_record recs) as [triples|e1] eqn:Hun.
  - destruct (mapM str_label triples) as [gold|]; simpl; [|done].
    intros [= Hev]. left. by apply evaluate_spans_Raise in Hev as [-> _].
  - intros [= <-]. by apply hash_records_raise in Hun.
Qed.

(** Among the runs whose gold labels are strings, the script raises
    [KeyError] exactly when the annotation file has no ["entities"]
    member, and it never raises [IndexError]: the table is always indexed
    within the matrix. *)
Theorem main_failure_modes (nlp : string → list (Z * Z * string))
    (text : string) (data : JSON.document) :
  (main nlp text data = Some (Raise KeyError) ↔ data !! "entities" = None)
  ∧ main nlp text data ≠ Some (Raise IndexError).
Proof.
  unfold main, load_spans.
  destruct (data !! "entities") as [recs|] eqn:Hdata; simpl; [|by split].
  split.
  - split; [|done]. intros He.
    by apply evaluate_records_raises in He as [?|?].
  - intros He. by apply evaluate_records_raises in He as [?|?].
Qed.

(** ** The script on a file of integer records *)

Section integer_records.
Implicit Types (gold pred : list (span Z)).

Lemma int_span_elem (l : list (span Z)) sp :
  int_span sp ∈ int_span <$> l ↔ sp ∈ l.
Proof.
  rewrite list_elem_of_fmap. split; [|by exists sp].
  intros ([[s e] lbl] & Heq & Hin). destruct sp as [[s' e'] lbl'].
  unfold int_span in Heq. simpl in Heq. by simplify_eq.
Qed.

Lemma filter_fmap_list {A B} (h : A → B) (P : B → Prop)
    `{∀ y, Decision (P y)} (l : list A) :
  filter P (h <$> l) = h <$> filter (λ x, P (h x)) l.
Proof.
  induction l as [|x l IH]; [done|]. csimpl.
  rewrite !filter_cons. case_decide; csimpl; by rewrite IH.
Qed.

Lemma int_span_gold_set gold sp :
  int_span sp ∈ gold_set (int_span <$> gold) ↔ sp ∈ gold_set gold.
Proof.
  unfold gold_set. rewrite !elem_of_list_to_set. apply int_span_elem.
Qed.

Lemma int_span_found gold pred g :
  gold_found (gold_set (int_span <$> gold)) (int_span <$> pred) (int_span g)
  ↔ gold_found (gold_set gold) pred g.
Proof.
  unfold gold_found. rewrite !elem_of_intersection, int_span_gold_set.
  by rewrite !elem_of_list_to_set, int_span_elem.
Qed.

Lemma int_span_false_positives gold pred :
  false_positives (int_span <$> gold) (int_span <$> pred)
  = int_span <$> false_positives gold pred.
Proof.
  unfold false_positives. rewrite filter_fmap_list. f_equal.
  apply list_filter_iff. intros p. by rewrite int_span_gold_set.
Qed.

Lemma int_span_build_y gold pred :
  build_y (int_span <$> gold) (int_span <$> pred) = build_y gold pred.
Proof.
  rewrite !build_y_eq, int_span_false_positives.
  rewrite <- !list_fmap_compose. f_equal. f_equal.
  apply list_fmap_ext. intros _ g _. simpl.
  pose proof (int_span_found gold pred g).
  repeat case_decide; tauto || done.
Qed.

Lemma int_span_pred_status gold pred :
  pred_status (int_span <$> gold) (int_span <$> pred) = pred_status gold pred.
Proof.
  rewrite !pred_status_eq, <- list_fmap_compose.
  apply list_fmap_ext. intros _ p _. simpl. unfold status_of.
  pose proof (int_span_gold_set gold p).
  repeat case_decide; tauto || done.
Qed.

Lemma int_span_ents (ents : list (Z * Z * string)) :
  ents_to_pred JSON.KInt ents = int_span <$> ents_to_pred id ents.
Proof.
  unfold ents_to_pred. rewrite <- list_fmap_compose.
  apply list_fmap_ext. by intros _ [[s e] l] _.
Qed.

Lemma int_record_keyed gold :
  Forall2 keyed (int_record <$> gold) (int_span <$> gold).
Proof.
  induction gold as [|[[s e] l] gold IH]; csimpl; constructor; [|done].
  by exists (JSON.Int s), (JSON.Int e).
Qed.

(** On an annotation file whose records are triples of two integers and a
    string, the script does what [evaluate] does on the corresponding
    integer spans.  When there is no record and no entity both raise
    [ValueError]; otherwise both return, with the same report, label list,
    confusion matrix and table, and the same outcome lines. *)
Theorem main_on_integer_records (nlp : string → list (Z * Z * string))
    (text : string) (data : JSON.document) gold :
  data !! "entities" = Some (int_record <$> gold) →
  (gold = [] ∧ nlp text = [] →
   main nlp text data = Some (Raise ValueError)
   ∧ evaluate id nlp text gold = Raise ValueError)
  ∧ (gold ≠ [] ∨ nlp text ≠ [] →
     ∃ repJ repZ, main nlp text data = Some (Ok repJ)
       ∧ evaluate id nlp text gold = Ok repZ
       ∧ rep_outcomes repJ = (λ l, (l.1, int_span l.2)) <$> rep_outcomes repZ
       ∧ rep_classification repJ = rep_classification repZ
       ∧ rep_labels repJ = rep_labels repZ
       ∧ rep_cm repJ = rep_cm repZ
       ∧ rep_summary repJ = rep_summary repZ).
Proof.
  intros Hdata. unfold main, load_spans, evaluate. rewrite Hdata. simpl.
  unfold evaluate_records.
  rewrite (hash_records_keyed _ _ (int_record_keyed gold)). simpl.
  rewrite str_label_tuples. simpl.
  rewrite int_span_ents. set (pred := ents_to_pred id (nlp text)).
  split.
  - intros [-> Hnlp]. unfold pred. rewrite Hnlp. simpl.
    by rewrite !evaluate_spans_empty.
  - intros Hne.
    assert (gold ++ pred ≠ []) as HneZ.
    { intros [-> Hp]%app_eq_nil. unfold pred, ents_to_pred in Hp.
      apply fmap_nil_inv in Hp. tauto. }
    assert ((int_span <$> gold) ++ (int_span <$> pred) ≠ []) as HneJ.
    { rewrite <- fmap_app. by intros ?%fmap_nil_inv. }
    rewrite (evaluate_spans_eq _ _ HneJ), (evaluate_spans_eq _ _ HneZ).
    rewrite int_span_build_y.
    eexists _, _. split; [done|]. split; [done|]. simpl.
    split; [|done].
    unfold outcome_lines. rewrite !fn_entities_nil, !app_nil_r.
    rewrite int_span_pred_status, !status_lines.
    rewrite zip_with_fmap_r, <- list_fmap_compose.
    by rewrite pred_status_eq, zip_with_fmap_l, zip_with_diag.
Qed.

End integer_records.

(** ** The further properties with hypotheses, applied to sample runs *)

Lemma no_prediction_witness :
  ∃ rep, evaluate id no_entities "" [span_A; span_B] = Ok rep
    ∧ rep_outcomes rep = []
    ∧ Forall (λ row,
        row_TP row = 0 ∧ row_FP row = 0
        ∧ row_FN row = label_count (row_label row) [span_A; span_B]
        ∧ ∃ prf, report_row rep (row_label row) = Some prf
            ∧ sklearn.precision prf = 0%Q
            ∧ sklearn.recall prf = 0%Q
            ∧ sklearn.f1_score prf = 0%Q)
      (rep_summary rep).
Proof.
  apply (no_prediction_all_missed id no_entities "" [span_A; span_B]);
    [reflexivity | done].
Defined.

Lemma same_triples_witness :
  ∃ rep, evaluate_spans [span_A; span_B] [span_B; span_A] = Ok rep
    ∧ Forall (λ row,
        row_TP row = label_count (row_label row) [span_A; span_B]
        ∧ row_FP row = 0 ∧ row_FN row = 0
        ∧ ∃ prf, report_row rep (row_label row) = Some prf
            ∧ sklearn.precision prf = 1%Q
            ∧ sklearn.recall prf = 1%Q
            ∧ sklearn.f1_score prf = 1%Q)
      (rep_summary rep).
Proof.
  apply (same_triples_perfect_scores [span_A; span_B] [span_B; span_A]);
    [done|].
  intros t. rewrite !elem_of_cons. tauto.
Defined.

Lemma paragraph_slice_witness :
  py_slice (text_from_docx two_paragraphs) 3 6 = "cde"
  ∧ paragraph_start two_paragraphs 2 = 7%nat.
Proof. exact (paragraph_slice two_paragraphs 1 "cde" eq_refl). Defined.

Lemma main_on_integer_records_witness :
  ∃ repJ repZ, main finds_A "" integer_file = Some (Ok repJ)
    ∧ evaluate id finds_A "" [span_A] = Ok repZ
    ∧ rep_outcomes repJ = (λ l, (l.1, int_span l.2)) <$> rep_outcomes repZ
    ∧ rep_classification repJ = rep_classification repZ
    ∧ rep_labels repJ = rep_labels repZ
    ∧ rep_cm repJ = rep_cm repZ
    ∧ rep_summary repJ = rep_summary repZ.
Proof.
  destruct (main_on_integer_records finds_A "" integer_file [span_A])
    as [_ Hrun]; [reflexivity|].
  apply Hrun. by left.
Defined.

Lemma table_matches_outcome_lines_witness :
  ∃ rep, evaluate_spans [span_A; span_B] [span_A] = Ok rep
    ∧ Forall (λ row,
        row_FP row
        = tagged_label_count FP (row_label row) (rep_outcomes rep)
        ∧ row_TP row
          = tagged_label_count TP (row_label row) (rep_outcomes rep))
      (rep_summary rep).
Proof.
  destruct (table_matches_outcome_lines [span_A; span_B] [span_A])
    as (rep & Hev & Hrows); [done|].
  exists rep. split; [done|].
  eapply Forall_impl; [exact Hrows|].
  intros row [Hfp Htp]. split; [done|]. apply Htp.
  intros t _ _ Hp. apply list_elem_of_singleton in Hp as ->.
  by vm_compute.
Defined.

Lemma labels_sorted_and_complete_witness :
  ∃ rep real, evaluate_spans [span_B; span_A] [span_X] = Ok rep
    ∧ rep_labels rep = real ++ [O_label]
    ∧ Sorted String.le real
    ∧ NoDup (rep_labels rep)
    ∧ ∀ L, L ≠ O_label →
        (L ∈ rep_labels rep
         ↔ ∃ sp, sp ∈ [span_B; span_A] ++ [span_X] ∧ span_label sp = L).
Proof. apply (labels_sorted_and_complete [span_B; span_A] [span_X]). done. Defined.

Lemma confusion_matrix_shape_witness :
  ∃ rep, evaluate_spans [span_A; span_B] [span_X] = Ok rep
    ∧ length (rep_cm rep) = length (rep_labels rep)
    ∧ Forall (λ r, length r = length (rep_labels rep)) (rep_cm rep)
    ∧ Forall (Forall (λ z, 0 ≤ z)) (rep_cm rep)
    ∧ cm_total (rep_cm rep)
      = Z.of_nat (length [span_A; span_B])
        + Z.of_nat (length (filter (λ o, o = FP)
                              (pred_status [span_A; span_B] [span_X]))).
Proof. apply (confusion_matrix_shape [span_A; span_B] [span_X]). done. Defined.

Lemma sentinel_cells_witness :
  ∃ rep, evaluate_spans [span_A; span_B] [span_X] = Ok rep
    ∧ Forall (λ row,
        row_FP row = confusion rep O_label (row_label row)
        ∧ row_FN row = confusion rep (row_label row) O_label
        ∧ row_FP row
          = label_count (row_label row)
              (filter (λ p, p ∉ [span_A; span_B]) [span_X])
        ∧ row_FN row
          = label_count (row_label row)
              (filter (λ g, g ∉ [span_X]) [span_A; span_B]))
      (rep_summary rep).
Proof. apply (sentinel_cells_are_FP_FN [span_A; span_B] [span_X]). done. Defined.

Lemma report_agrees_with_table_witness :
  ∃ rep, evaluate_spans [span_A; span_B] [span_A] = Ok rep
    ∧ Forall (λ row, ∃ prf,
        report_row rep (row_label row) = Some prf
        ∧ sklearn.precision prf
          = sklearn.ratio (row_TP row) (row_TP row + row_FP row)
        ∧ sklearn.recall prf
          = sklearn.ratio (row_TP row) (row_TP row + row_FN row)
        ∧ sklearn.support prf = label_count (row_label row) [span_A; span_B])
      (rep_summary rep).
Proof. apply (report_agrees_with_table [span_A; span_B] [span_A]). done. Defined.
